(** * food_ordering_system: the cart, checkout and order-status handlers of app.py

    A shallow embedding of the Flask request handlers of [src/app.py] and the
    properties of the cart / order workflow.

    Modelling conventions.
    - A request handler is a function from the world before the request
      (database rows, session dictionary, pending flash messages) to the
      response and the world after it.
    - Python numbers are modelled as they are: [int] is [Z], [float] is a
      binary64 [PrimFloat.float], and mixed arithmetic converts the int
      operand first (raising OverflowError when it does not fit).
    - [db.session.commit()] stores the pending rows with the primary key
      SQLite assigns (one more than the largest key in the table). It fails
      for a value the column cannot hold (an int that is no 64-bit integer,
      NaN in a NOT NULL float column) and for a repeated value in a unique
      column; other failures of the storage engine are outside the model.
    - Strings are byte strings; form values are taken to be ASCII. *)

From Stdlib Require Import ZArith List String Ascii Bool Lia.
From Stdlib Require Import PrimFloat SpecFloat FloatOps.
From stdpp Require Import base option list strings gmap.

Open Scope string_scope.
Open Scope list_scope.
Open Scope Z_scope.

(* ===================================================================== *)
(** * Python values and builtins used by the handlers *)
(* ===================================================================== *)

Module Py.

(** The exceptions the modelled code can raise; [SqlIntegrityError] is
    sqlalchemy's IntegrityError, raised by a commit that a constraint of
    the table refuses. *)
Inductive exn :=
  TypeError | ValueError | OverflowError | KeyError | AttributeError | SqlIntegrityError.

(** An evaluation either yields a value or raises. *)
Inductive result (A : Type) :=
| Ok (a : A)
| Raised (e : exn).
Arguments Ok {A} a.
Arguments Raised {A} e.

Definition bind {A B : Type} (r : result A) (k : A -> result B) : result B :=
  match r with
  | Ok a => k a
  | Raised e => Raised e
  end.

Notation "x <- r ;; k" := (bind r (fun x => k))
  (at level 100, r at next level, right associativity).

(** A Python number: an unbounded [int] or a binary64 [float]. *)
Inductive num :=
| Int (z : Z)
| Float (f : float).

(** Conversion of an int operand to float (round to nearest even);
    OverflowError "int too large to convert to float" when the rounded
    value is not finite. *)
Definition float_of_int (z : Z) : result float :=
  match binary_normalize prec emax z 0 false with
  | S754_infinity _ => Raised OverflowError
  | sf => Ok (SF2Prim sf)
  end.

Definition as_float (a : num) : result float :=
  match a with
  | Int z => float_of_int z
  | Float f => Ok f
  end.

(** [a + b] *)
Definition add (a b : num) : result num :=
  match a, b with
  | Int x, Int y => Ok (Int (x + y))
  | _, _ => x <- as_float a ;; y <- as_float b ;; Ok (Float (PrimFloat.add x y))
  end.

(** [a * b] *)
Definition mul (a b : num) : result num :=
  match a, b with
  | Int x, Int y => Ok (Int (x * y))
  | _, _ => x <- as_float a ;; y <- as_float b ;; Ok (Float (PrimFloat.mul x y))
  end.

(** [sum(f(x) for x in xs)]: the accumulator starts at the int 0 and the
    terms are produced and added from left to right with [+]; the first
    exception ends the loop. (CPython from 3.12 on adds floats with a
    compensated loop, which can differ in the last bit; the application
    predates it and the plain loop is the one modelled.) *)
Definition sum_step {A : Type} (f : A -> result num) (acc : result num) (x : A) : result num :=
  a <- acc ;; t <- f x ;; add a t.

Definition builtin_sum {A : Type} (f : A -> result num) (xs : list A) : result num :=
  fold_left (sum_step f) xs (Ok (Int 0)).

(** Truth values: [bool(x)] for a float, an int and a form string. *)
Definition truthy_float (f : float) : bool := negb (PrimFloat.eqb f PrimFloat.zero).
Definition truthy_int (z : Z) : bool := negb (z =? 0).
Definition truthy_str (s : option string) : bool :=
  match s with
  | None => false
  | Some s => negb (String.eqb s "")
  end.

(** ** Parsing of numeric strings: [int(s)] and [float(s)] *)

Definition code (c : ascii) : Z := Z.of_nat (nat_of_ascii c).

Definition is_space (c : ascii) : bool :=
  ((9 <=? code c) && (code c <=? 13)) || (code c =? 32).

Definition is_digit (c : ascii) : bool := (48 <=? code c) && (code c <=? 57).
Definition digit_val (c : ascii) : Z := code c - 48.
Definition is_char (k : Z) (c : ascii) : bool := code c =? k.

(** ASCII lower-casing, for the case-insensitive words inf, infinity, nan. *)
Definition lower (c : ascii) : Z :=
  if (65 <=? code c) && (code c <=? 90) then code c + 32 else code c.

Fixpoint lstrip (s : list ascii) : list ascii :=
  match s with
  | c :: r => if is_space c then lstrip r else s
  | [] => []
  end.

Definition strip (s : list ascii) : list ascii := rev (lstrip (rev (lstrip s))).

(** An optional sign; [true] for minus. *)
Definition sign (s : list ascii) : bool * list ascii :=
  match s with
  | c :: r => if is_char 45 c then (true, r) else if is_char 43 c then (false, r) else (false, s)
  | [] => (false, s)
  end.

(** [(["_"] digit)*]: the digits read and the unread rest. *)
Fixpoint digitpart_rest (s : list ascii) : list Z * list ascii :=
  match s with
  | c :: r =>
      if is_digit c then
        let '(ds, r') := digitpart_rest r in (digit_val c :: ds, r')
      else if is_char 95 c then
        match r with
        | d :: r2 =>
            if is_digit d then
              let '(ds, r') := digitpart_rest r2 in (digit_val d :: ds, r')
            else ([], s)
        | [] => ([], s)
        end
      else ([], s)
  | [] => ([], [])
  end.

(** [digitpart ::= digit (["_"] digit)*] *)
Definition digitpart (s : list ascii) : option (list Z * list ascii) :=
  match s with
  | c :: r =>
      if is_digit c then
        let '(ds, r') := digitpart_rest r in Some (digit_val c :: ds, r')
      else None
  | [] => None
  end.

Definition digits_value (ds : list Z) : Z := fold_left (fun acc d => 10 * acc + d) ds 0.

(** The default of [sys.int_info.default_max_str_digits], the limit on
    the digits of an int string in CPython 3.11 and the releases that
    took it over. *)
Definition max_str_digits : nat := 4300.

(** [int(s)] for a string, base 10: surrounding whitespace, an optional
    sign, a digit part of at most [max_str_digits] digits, nothing else;
    ValueError otherwise. *)
Definition int_of_str (s : string) : result Z :=
  let '(neg, r) := sign (strip (list_ascii_of_string s)) in
  match digitpart r with
  | Some (ds, []) =>
      if (max_str_digits <? length ds)%nat then Raised ValueError
      else Ok (if neg then - digits_value ds else digits_value ds)
  | _ => Raised ValueError
  end.

(** [int(x)] where [x] is [request.form.get(...)]: None is a TypeError. *)
Definition builtin_int (x : option string) : result Z :=
  match x with
  | None => Raised TypeError
  | Some s => int_of_str s
  end.

(** [number ::= [digitpart] "." digitpart | digitpart ["."]]:
    integer digits, fraction digits and the unread rest. *)
Definition number (s : list ascii) : option (list Z * list Z * list ascii) :=
  match digitpart s with
  | Some (ip, r) =>
      match r with
      | c :: r1 =>
          if is_char 46 c then
            match digitpart r1 with
            | Some (fp, r2) => Some (ip, fp, r2)
            | None => Some (ip, [], r1)
            end
          else Some (ip, [], r)
      | [] => Some (ip, [], [])
      end
  | None =>
      match s with
      | c :: r1 =>
          if is_char 46 c then
            match digitpart r1 with
            | Some (fp, r2) => Some ([], fp, r2)
            | None => None
            end
          else None
      | [] => None
      end
  end.

(** [exponent ::= ("e" | "E") [sign] digitpart], up to the end of the
    string; an absent exponent is 0. *)
Definition exponent (s : list ascii) : option Z :=
  match s with
  | [] => Some 0
  | c :: r =>
      if lower c =? 101 then
        let '(neg, r1) := sign r in
        match digitpart r1 with
        | Some (ds, []) => Some (if neg then - digits_value ds else digits_value ds)
        | _ => None
        end
      else None
  end.

(** The binary64 nearest to [(-1)^neg * m * 10^e10] (ties to even). *)
Definition decimal_to_float (neg : bool) (m e10 : Z) : float :=
  SF2Prim
    (if m =? 0 then S754_zero neg
     else if 0 <=? e10 then
       binary_normalize prec emax (if neg then - (m * 10 ^ e10) else m * 10 ^ e10) 0 false
     else
       SFdiv prec emax (S754_finite neg (Z.to_pos m) 0)
                       (S754_finite false (Z.to_pos (10 ^ (- e10))) 0)).

Definition word_inf : list Z := [105; 110; 102].
Definition word_infinity : list Z := [105; 110; 102; 105; 110; 105; 116; 121].
Definition word_nan : list Z := [110; 97; 110].

Definition is_word (w : list Z) (s : list ascii) : bool :=
  bool_decide (map lower s = w).

(** [float(s)] for a string: surrounding whitespace, an optional sign, then
    inf, infinity or nan in any case, or a decimal number with an optional
    exponent; ValueError otherwise. *)
Definition float_of_str (s : string) : result float :=
  let '(neg, r) := sign (strip (list_ascii_of_string s)) in
  if is_word word_inf r || is_word word_infinity r then
    Ok (if neg then neg_infinity else infinity)
  else if is_word word_nan r then Ok nan
  else
    match number r with
    | Some (ip, fp, r') =>
        match exponent r' with
        | Some e =>
            Ok (decimal_to_float neg (digits_value (ip ++ fp)) (e - Z.of_nat (length fp)))
        | None => Raised ValueError
        end
    | None => Raised ValueError
    end.

(** [float(x)] where [x] is [request.form.get(...)]: None is a TypeError. *)
Definition builtin_float (x : option string) : result float :=
  match x with
  | None => Raised TypeError
  | Some s => float_of_str s
  end.

End Py.

Import Py.

(* ===================================================================== *)
(** * Database models *)
(* ===================================================================== *)

(** [class User(db.Model)] *)
Record User := mkUser {
  u_id : Z;
  u_username : string;
  u_email : string;
  u_password : string;
  u_is_admin : bool
}.

(** [class Category(db.Model)] *)
Record Category := mkCategory {
  c_id : Z;
  c_name : string
}.

(** [class MenuItem(db.Model)] *)
Record MenuItem := mkMenuItem {
  mi_id : Z;
  mi_name : string;
  mi_description : option string;
  mi_price : float;
  mi_image : option string;
  mi_category_id : Z
}.

(** [class Order(db.Model)]; [created_at] is filled in by the database
    clock and read by none of the handlers below, so it is left out. *)
Record Order := mkOrder {
  o_id : Z;
  o_user_id : Z;
  o_total : float;
  o_status : string
}.

(** [class OrderItem(db.Model)] *)
Record OrderItem := mkOrderItem {
  oi_id : Z;
  oi_order_id : Z;
  oi_menu_item_id : Z;
  oi_quantity : Z;
  oi_price : float
}.

(** The persisted store: one list of rows per table, in insertion order. *)
Record Db := mkDb {
  users : list User;
  categories : list Category;
  menu_items : list MenuItem;
  orders : list Order;
  order_items : list OrderItem
}.

(** An entry of the session cart: the dict built by [add_to_cart]. *)
Record CartEntry := mkCartEntry {
  ce_id : Z;
  ce_name : string;
  ce_price : float;
  ce_quantity : Z;
  ce_image : option string
}.

(** The keys of the Flask session the handlers below read or write
    ('username' and 'is_admin' are written at login and read by none of
    them); a key that is absent from the session is [None]. *)
Record Session := mkSession {
  user_id : option Z;
  cart : option (list CartEntry)
}.

(** The world a request runs in. [flashes] are the (message, category)
    pairs queued by [flash], oldest first; Flask keeps them in the session
    under a key of its own, here they are kept apart from [Session]. *)
Record World := mkWorld {
  db : Db;
  session : Session;
  flashes : list (string * string)
}.

(** What a handler answers. *)
Inductive response :=
| Redirect (endpoint : string) (order_id : option Z)
    (* redirect(url_for(endpoint)) or redirect(url_for(endpoint, order_id=...)) *)
| RenderCart (cart : list CartEntry) (total : num)
    (* render_template('customer/cart.html', cart=cart, total=total) *)
| RenderOrderConfirmation (order : Order)
    (* render_template('customer/order_confirmation.html', order=order) *)
| NotFound
    (* the 404 of get_or_404 *)
| Raise (e : exn).
    (* an exception that leaves the handler *)

Definition handler := World -> response * World.

(** ** Store and session primitives *)

(** [Model.query.get(id)]: the row with that primary key. *)
Definition query_get {R : Type} (pk : R -> Z) (rows : list R) (id : Z) : option R :=
  find (fun r => pk r =? id) rows.

(** The primary key given to the next inserted row: one more than the
    largest key present, 1 for an empty table. *)
Definition next_id {R : Type} (pk : R -> Z) (rows : list R) : Z :=
  fold_right Z.max 0 (map pk rows) + 1.

(** What SQLite takes in a column. An INTEGER is a 64-bit signed integer:
    the driver refuses to bind any other int (OverflowError), for a value
    to store as for a key to look up, so no row has a key outside that
    range. A REAL cannot hold NaN: it is stored as NULL, which a NOT NULL
    column refuses (IntegrityError). *)
Definition fits_integer (z : Z) : bool := (- 2 ^ 63 <=? z) && (z <? 2 ^ 63).
Definition stored_real (f : float) : bool := PrimFloat.eqb f f.

(** The answer of [get_or_404] when no row has the key: the 404 for a key
    the driver can bind, its OverflowError otherwise. *)
Definition no_row (id : Z) : response :=
  if fits_integer id then NotFound else Raise OverflowError.

Definition set_db (d : Db) (w : World) : World :=
  {| db := d; session := session w; flashes := flashes w |}.

Definition set_cart (c : option (list CartEntry)) (w : World) : World :=
  {| db := db w;
     session := {| user_id := user_id (session w); cart := c |};
     flashes := flashes w |}.

(** [flash(message, category)] *)
Definition flash (message category : string) (w : World) : World :=
  {| db := db w; session := session w; flashes := flashes w ++ [(message, category)] |}.

(** [session.get('cart', [])] *)
Definition session_cart (w : World) : list CartEntry := default [] (cart (session w)).

(* ===================================================================== *)
(** * Access guards *)
(* ===================================================================== *)

(** [login_required]: the decorated view runs only when 'user_id' is in
    the session. *)
Definition login_required (f : handler) : handler := fun w =>
  match user_id (session w) with
  | None => (Redirect "login" None, flash "Please log in to access this page." "danger" w)
  | Some _ => f w
  end.

(** [admin_required]: 'user_id' must be in the session and the user it
    names must be an admin; [User.query.get] yields None for a missing
    row and reading [is_admin] from it is an AttributeError. *)
Definition admin_required (f : handler) : handler := fun w =>
  let deny := (Redirect "index" None,
               flash "You do not have permission to access this page." "danger" w) in
  match user_id (session w) with
  | None => deny
  | Some uid =>
      match query_get u_id (users (db w)) uid with
      | None => (Raise AttributeError, w)
      | Some u => if negb (u_is_admin u) then deny else f w
      end
  end.

(* ===================================================================== *)
(** * Customer routes *)
(* ===================================================================== *)

(** [cart_item['quantity'] += d] *)
Definition add_quantity (d : Z) (e : CartEntry) : CartEntry :=
  {| ce_id := ce_id e; ce_name := ce_name e; ce_price := ce_price e;
     ce_quantity := ce_quantity e + d; ce_image := ce_image e |}.

(** The [for cart_item in cart] loop of [add_to_cart]: the first entry
    whose id is [id] has its quantity incremented and the loop returns
    ([Some] of the updated cart); [None] when the loop runs to its end. *)
Fixpoint add_existing (id : Z) (cart : list CartEntry) : option (list CartEntry) :=
  match cart with
  | [] => None
  | e :: r =>
      if ce_id e =? id then Some (add_quantity 1 e :: r)
      else
        match add_existing id r with
        | Some r' => Some (e :: r')
        | None => None
        end
  end.

(** The dict appended for an item that is not in the cart yet. *)
Definition new_entry (item : MenuItem) : CartEntry :=
  {| ce_id := mi_id item; ce_name := mi_name item; ce_price := mi_price item;
     ce_quantity := 1; ce_image := mi_image item |}.

(** [POST /add_to_cart/<int:item_id>] *)
Definition add_to_cart (item_id : Z) : handler := login_required (fun w =>
  let w := match cart (session w) with
           | None => set_cart (Some []) w
           | Some _ => w
           end in
  match query_get mi_id (menu_items (db w)) item_id with
  | None => (no_row item_id, w)
  | Some item =>
      let cart := session_cart w in
      match add_existing (mi_id item) cart with
      | Some cart' =>
          (Redirect "customer_menu" None,
           flash (String.append "Added another " (String.append (mi_name item) " to your cart"))
                 "success" (set_cart (Some cart') w))
      | None =>
          (Redirect "customer_menu" None,
           flash (String.append "Added " (String.append (mi_name item) " to your cart"))
                 "success" (set_cart (Some (cart ++ [new_entry item])) w))
      end
  end).

(** [item['price'] * item['quantity']] *)
Definition line_total (item : CartEntry) : result num :=
  mul (Float (ce_price item)) (Int (ce_quantity item)).

(** [sum(item['price'] * item['quantity'] for item in cart)] *)
Definition cart_total (cart : list CartEntry) : result num :=
  builtin_sum line_total cart.

(** [GET /cart] *)
Definition view_cart : handler := login_required (fun w =>
  let cart := session_cart w in
  match cart_total cart with
  | Raised e => (Raise e, w)
  | Ok total => (RenderCart cart total, w)
  end).

(** [request.form.get(key) == s] *)
Definition form_is (x : option string) (s : string) : bool :=
  match x with
  | Some t => String.eqb t s
  | None => false
  end.

(** The body of [update_cart] under its range check, on the cart list. *)
Definition apply_action (action : option string) (i : nat) (cart : list CartEntry)
  : list CartEntry :=
  if form_is action "increase" then alter (add_quantity 1) i cart
  else if form_is action "decrease" then
    let cart := alter (add_quantity (-1)) i cart in
    match cart !! i with
    | Some e => if ce_quantity e <=? 0 then delete i cart else cart
    | None => cart
    end
  else if form_is action "remove" then delete i cart
  else cart.

(** [POST /update_cart/<int:index>] *)
Definition update_cart (index : Z) (form : gmap string string) : handler :=
  login_required (fun w =>
  let cart := session_cart w in
  if (0 <=? index) && (index <? Z.of_nat (length cart)) then
    let action := form !! "action" in
    (Redirect "view_cart" None,
     flash "Cart updated" "success"
       (set_cart (Some (apply_action action (Z.to_nat index) cart)) w))
  else (Redirect "view_cart" None, w)).

(** [db.session.add(OrderItem(...))] for one cart entry, as committed. *)
Definition add_order_item (order_id : Z) (rows : list OrderItem) (item : CartEntry)
  : list OrderItem :=
  rows ++ [ {| oi_id := next_id oi_id rows; oi_order_id := order_id;
               oi_menu_item_id := ce_id item; oi_quantity := ce_quantity item;
               oi_price := ce_price item |} ].

(** The first cart entry whose OrderItem row the second commit of
    [checkout] refuses, if any, the rows being inserted one by one: an
    item id or a quantity that is no 64-bit integer, or a price that is
    NaN. *)
Definition item_refused (item : CartEntry) : option exn :=
  if negb (fits_integer (ce_id item) && fits_integer (ce_quantity item))
  then Some OverflowError
  else if negb (stored_real (ce_price item)) then Some SqlIntegrityError
  else None.

Fixpoint first_refused (cart : list CartEntry) : option exn :=
  match cart with
  | [] => None
  | item :: r =>
      match item_refused item with
      | Some e => Some e
      | None => first_refused r
      end
  end.

(** [POST /checkout]. The total is bound to a Float column, hence stored
    as a float; for a non-empty cart it is one already. The Order is
    committed before the OrderItems are added: when the first commit
    fails nothing is stored, when the second fails the Order stays
    without items and the cart stays in the session. *)
Definition checkout : handler := login_required (fun w =>
  let cart := session_cart w in
  match cart with
  | [] => (Redirect "customer_menu" None, flash "Your cart is empty" "warning" w)
  | _ :: _ =>
      match cart_total cart with
      | Raised e => (Raise e, w)
      | Ok total =>
          match user_id (session w) with
          | None => (Raise KeyError, w)
          | Some uid =>
              match as_float total with
              | Raised e => (Raise e, w)
              | Ok t =>
                  if negb (fits_integer uid) then (Raise OverflowError, w)
                  else if negb (stored_real t) then (Raise SqlIntegrityError, w)
                  else
                  let order := {| o_id := next_id o_id (orders (db w)); o_user_id := uid;
                                  o_total := t; o_status := "Pending" |} in
                  let d := db w in
                  match first_refused cart with
                  | Some e =>
                      (Raise e,
                       set_db {| users := users d; categories := categories d;
                                 menu_items := menu_items d;
                                 orders := orders d ++ [order];
                                 order_items := order_items d |} w)
                  | None =>
                  let d' := {| users := users d; categories := categories d;
                               menu_items := menu_items d;
                               orders := orders d ++ [order];
                               order_items :=
                                 fold_left (add_order_item (o_id order)) cart (order_items d) |} in
                  (Redirect "order_confirmation" (Some (o_id order)),
                   flash "Order placed successfully!" "success" (set_cart None (set_db d' w)))
                  end
              end
          end
      end
  end).

(** [GET /order_confirmation/<int:order_id>] *)
Definition order_confirmation (order_id : Z) : handler := login_required (fun w =>
  match query_get o_id (orders (db w)) order_id with
  | None => (no_row order_id, w)
  | Some order =>
      match user_id (session w) with
      | None => (Raise KeyError, w)
      | Some uid =>
          if negb (o_user_id order =? uid) then
            (Redirect "customer_menu" None,
             flash "You are not authorized to view this order" "danger" w)
          else (RenderOrderConfirmation order, w)
      end
  end).

(* ===================================================================== *)
(** * Admin routes *)
(* ===================================================================== *)

(** [POST /admin/add_item]. Past the check, [name] is a non-empty string.
    The commit fails for a category id that is no 64-bit integer and for
    a price that is NaN. *)
Definition add_item (form : gmap string string) : handler := admin_required (fun w =>
  let name := form !! "name" in
  let description := form !! "description" in
  match builtin_float (form !! "price") with
  | Raised e => (Raise e, w)
  | Ok price =>
      match builtin_int (form !! "category_id") with
      | Raised e => (Raise e, w)
      | Ok category_id =>
          if negb (truthy_str name) || negb (truthy_float price) || negb (truthy_int category_id)
          then (Redirect "admin_menu" None,
                flash "Name, price and category are required" "danger" w)
          else if negb (fits_integer category_id) then (Raise OverflowError, w)
          else if negb (stored_real price) then (Raise SqlIntegrityError, w)
          else
            let d := db w in
            let new_item := {| mi_id := next_id mi_id (menu_items d);
                               mi_name := default "" name;
                               mi_description := description;
                               mi_price := price;
                               mi_image := Some "default.jpg";
                               mi_category_id := category_id |} in
            let d' := {| users := users d; categories := categories d;
                         menu_items := menu_items d ++ [new_item];
                         orders := orders d; order_items := order_items d |} in
            (Redirect "admin_menu" None,
             flash "Menu item added successfully" "success" (set_db d' w))
      end
  end).

(** [order.status = new_status] followed by the commit. *)
Definition set_status (order_id : Z) (new_status : string) (rows : list Order) : list Order :=
  map (fun o => if o_id o =? order_id
                then {| o_id := o_id o; o_user_id := o_user_id o;
                        o_total := o_total o; o_status := new_status |}
                else o) rows.

(** [new_status in ['Pending', 'Completed', 'Cancelled']] *)
Definition allowed_status (new_status : option string) : bool :=
  form_is new_status "Pending" || form_is new_status "Completed"
  || form_is new_status "Cancelled".

(** [POST /admin/update_order_status/<int:order_id>] *)
Definition update_order_status (order_id : Z) (form : gmap string string) : handler :=
  admin_required (fun w =>
  match query_get o_id (orders (db w)) order_id with
  | None => (no_row order_id, w)
  | Some order =>
      let new_status := form !! "status" in
      if allowed_status new_status then
        let d := db w in
        let d' := {| users := users d; categories := categories d;
                     menu_items := menu_items d;
                     orders := set_status (o_id order) (default "" new_status) (orders d);
                     order_items := order_items d |} in
        (Redirect "admin_orders" None,
         flash "Order status updated" "success" (set_db d' w))
      else (Redirect "admin_orders" None, flash "Invalid status" "danger" w)
  end).

(* ===================================================================== *)
(** * Properties of the cart and the order workflow: definitions *)
(* ===================================================================== *)

(** Every entry of the cart has a quantity of at least 1. *)
Definition cart_ok (cart : list CartEntry) : Prop :=
  Forall (fun e => 1 <= ce_quantity e) cart.

(** The cart total as the specification words it: the sum of
    price times quantity over the first [n] entries, entry by entry. *)
Fixpoint sigma (cart : list CartEntry) (n : nat) : result num :=
  match n with
  | O => Ok (Int 0)
  | S k =>
      s <- sigma cart k ;;
      match cart !! k with
      | Some e => t <- mul (Float (ce_price e)) (Int (ce_quantity e)) ;; add s t
      | None => Ok s
      end
  end.

(** An OrderItem row that carries the order id and the id, quantity and
    price of a cart entry. *)
Definition snapshot_of (order_id : Z) (e : CartEntry) (r : OrderItem) : Prop :=
  oi_order_id r = order_id /\ oi_menu_item_id r = ce_id e /\
  oi_quantity r = ce_quantity e /\ oi_price r = ce_price e.

(** The session belongs to an administrator. *)
Definition admin_session (w : World) (u : User) : Prop :=
  user_id (session w) = Some (u_id u) /\
  query_get u_id (users (db w)) (u_id u) = Some u /\
  u_is_admin u = true.

(** The status stored for an order id. *)
Definition status_of (w : World) (order_id : Z) : option string :=
  o_status <$> query_get o_id (orders (db w)) order_id.

(** "Completed and Cancelled are terminal": no request changes the status
    of an order that is Completed or Cancelled. *)
Definition terminal_states : Prop :=
  forall (order_id : Z) (form : gmap string string) (w : World) (s : string),
    status_of w order_id = Some s ->
    s = "Completed" \/ s = "Cancelled" ->
    status_of (snd (update_order_status order_id form w)) order_id = Some s.

(** "A customer who is not the owner of the order is answered with the
    authorization error, whether or not the order exists." *)
Definition non_owner_always_unauthorized : Prop :=
  forall (order_id : Z) (w : World) (uid : Z),
    user_id (session w) = Some uid ->
    (forall order, query_get o_id (orders (db w)) order_id = Some order ->
                   o_user_id order <> uid) ->
    order_confirmation order_id w =
      (Redirect "customer_menu" None,
       flash "You are not authorized to view this order" "danger" w).

(** "Every menu item stored by add_item has a price above zero." *)
Definition stored_price_positive : Prop :=
  forall (form : gmap string string) (w : World) (item : MenuItem),
    menu_items (db (snd (add_item form w))) = menu_items (db w) ++ [item] ->
    PrimFloat.ltb 0 (mi_price item) = true.

(** ** Sample data *)

Definition sample_db : Db :=
  {| users := [ mkUser 1 "admin" "admin@example.com" "sha256$1" true;
                mkUser 2 "alice" "alice@example.com" "sha256$2" false;
                mkUser 3 "bob" "bob@example.com" "sha256$3" false ];
     categories := [ mkCategory 1 "Mains" ];
     menu_items := [ mkMenuItem 1 "A" None 5 (Some "default.jpg") 1;
                     mkMenuItem 2 "B" None 3.5 (Some "default.jpg") 1 ];
     orders := [];
     order_items := [] |}.

(** alice is logged in and has no cart yet. *)
Definition alice_fresh : World :=
  {| db := sample_db; session := {| user_id := Some 2; cart := None |}; flashes := [] |}.

(** alice after adding A twice and B once. *)
Definition alice_shopping : World :=
  snd (add_to_cart 2 (snd (add_to_cart 1 (snd (add_to_cart 1 alice_fresh))))).

(** The store after alice's checkout, seen by bob and by the admin. *)
Definition bob_after : World :=
  {| db := db (snd (checkout alice_shopping));
     session := {| user_id := Some 3; cart := None |}; flashes := [] |}.

Definition admin_after : World :=
  {| db := db (snd (checkout alice_shopping));
     session := {| user_id := Some 1; cart := None |}; flashes := [] |}.

Definition sample_admin : User := mkUser 1 "admin" "admin@example.com" "sha256$1" true.

(** An add_item form for a soup of category 1 at the given price. *)
Definition soup_form (price : string) : gmap string string :=
  <["name" := "Soup"]> (<["price" := price]> {["category_id" := "1"]}).

(* ===================================================================== *)
(** * The other routes: accounts, listings and administration *)
(* ===================================================================== *)

(** The routes below also render pages, answer 400 for a form key that is
    missing ([request.form[key]]) and insert into tables with unique
    columns (User.username, User.email, Category.name); an insert that
    would repeat a unique value is refused by the database with an
    IntegrityError, which the code does not catch. *)

(** A rendered template with the values handed to it. *)
Inductive page :=
| RegisterPage
    (* auth/register.html *)
| LoginPage
    (* auth/login.html *)
| MenuPage (categories : list Category)
    (* customer/menu.html, categories=... *)
| OrdersPage (orders : list Order)
    (* customer/orders.html, orders=... *)
| DashboardPage (total_orders pending_orders completed_orders total_users : nat)
    (* admin/dashboard.html *)
| AdminMenuPage (categories : list Category) (items : list MenuItem)
    (* admin/menu.html *)
| AdminOrdersPage (orders : list Order) (status_filter : string)
    (* admin/orders.html *)
| AdminUsersPage (users : list User).
    (* admin/users.html *)

(** What these routes answer. *)
Inductive reply :=
| Std (r : response)
    (* a redirect, a 404 or an exception, as for the routes above *)
| Render (p : page)
| BadRequest
    (* the 400 of request.form[key] when the key is missing *)
| IntegrityError.
    (* the commit violated a unique constraint *)

Definition view := World -> reply * World.

(** [login_required] around a view of this kind. *)
Definition login_required_view (f : view) : view := fun w =>
  match user_id (session w) with
  | None => (Std (Redirect "login" None),
             flash "Please log in to access this page." "danger" w)
  | Some _ => f w
  end.

(** [admin_required] around a view of this kind. *)
Definition admin_required_view (f : view) : view := fun w =>
  let deny := (Std (Redirect "index" None),
               flash "You do not have permission to access this page." "danger" w) in
  match user_id (session w) with
  | None => deny
  | Some uid =>
      match query_get u_id (users (db w)) uid with
      | None => (Std (Raise AttributeError), w)
      | Some u => if negb (u_is_admin u) then deny else f w
      end
  end.

(** ** Inserts into the tables with unique columns *)

Definition username_is (username : string) (u : User) : bool :=
  String.eqb (u_username u) username.
Definition email_is (email : string) (u : User) : bool :=
  String.eqb (u_email u) email.
Definition name_is (name : string) (c : Category) : bool :=
  String.eqb (c_name c) name.

(** [db.session.add(User(...)); db.session.commit()]: [None] is the
    IntegrityError of a repeated username or email. *)
Definition insert_user (username email password : string) (is_admin : bool) (d : Db)
  : option Db :=
  if existsb (username_is username) (users d) || existsb (email_is email) (users d)
  then None
  else Some {| users := users d ++ [ {| u_id := next_id u_id (users d);
                                        u_username := username; u_email := email;
                                        u_password := password;
                                        u_is_admin := is_admin |} ];
               categories := categories d; menu_items := menu_items d;
               orders := orders d; order_items := order_items d |}.

(** [db.session.add(Category(name=name)); db.session.commit()] *)
Definition insert_category (name : string) (d : Db) : option Db :=
  if existsb (name_is name) (categories d) then None
  else Some {| users := users d;
               categories := categories d ++ [ {| c_id := next_id c_id (categories d);
                                                  c_name := name |} ];
               menu_items := menu_items d;
               orders := orders d; order_items := order_items d |}.

(** ** Accounts *)

(** The session with the two keys that only [login] writes and only
    [logout] clears. *)
Record Site := mkSite {
  site_world : World;
  site_username : option string;
  site_is_admin : option bool
}.

Section Accounts.

(** The password hashing of werkzeug.security: [generate_password_hash]
    draws a random salt, which is an argument here. *)
Variable generate_password_hash : string -> string -> string.
Variable check_password_hash : string -> string -> bool.

(** [GET, POST /register] *)
Definition register (method : string) (form : gmap string string) (salt : string) : view :=
  fun w =>
  if String.eqb method "POST" then
    match form !! "username" with
    | None => (BadRequest, w)
    | Some username =>
        match form !! "email" with
        | None => (BadRequest, w)
        | Some email =>
            match form !! "password" with
            | None => (BadRequest, w)
            | Some password =>
                match find (username_is username) (users (db w)) with
                | Some _ =>
                    (Std (Redirect "register" None),
                     flash "Username already taken" "danger" w)
                | None =>
                    match find (email_is email) (users (db w)) with
                    | Some _ =>
                        (Std (Redirect "register" None),
                         flash "Email already registered" "danger" w)
                    | None =>
                        let hashed_password := generate_password_hash salt password in
                        match insert_user username email hashed_password false (db w) with
                        | None => (IntegrityError, w)
                        | Some d' =>
                            (Std (Redirect "login" None),
                             flash "Registration successful. Please login." "success"
                                   (set_db d' w))
                        end
                    end
                end
            end
        end
    end
  else (Render RegisterPage, w).

(** [GET, POST /login] *)
Definition login (method : string) (form : gmap string string)
  : Site -> reply * Site := fun s =>
  let w := site_world s in
  let stay (r : reply) (w' : World) :=
    (r, {| site_world := w'; site_username := site_username s;
           site_is_admin := site_is_admin s |}) in
  if String.eqb method "POST" then
    match form !! "username" with
    | None => stay BadRequest w
    | Some username =>
        match form !! "password" with
        | None => stay BadRequest w
        | Some password =>
            let user := find (username_is username) (users (db w)) in
            match user with
            | None =>
                stay (Std (Redirect "login" None))
                     (flash "Invalid username or password" "danger" w)
            | Some user =>
                if negb (check_password_hash (u_password user) password) then
                  stay (Std (Redirect "login" None))
                       (flash "Invalid username or password" "danger" w)
                else
                  (Std (Redirect (if u_is_admin user then "admin_dashboard"
                                  else "customer_menu") None),
                   {| site_world :=
                        {| db := db w;
                           session := {| user_id := Some (u_id user);
                                         cart := cart (session w) |};
                           flashes := flashes w |};
                      site_username := Some (u_username user);
                      site_is_admin := Some (u_is_admin user) |})
            end
        end
    end
  else stay (Render LoginPage) w.

(** [GET /logout]: [session.clear()] drops every key, the queued flash
    messages with them, before the farewell is queued. *)
Definition logout : Site -> reply * Site := fun s =>
  (Std (Redirect "index" None),
   {| site_world := {| db := db (site_world s);
                       session := {| user_id := None; cart := None |};
                       flashes := [("You have been logged out.", "success")] |};
      site_username := None;
      site_is_admin := None |}).

(** [create_tables], run before the first request; [db.create_all()]
    creates missing tables and touches no row. [None] is the
    IntegrityError of the insert. *)
Definition create_tables (salt : string) (d : Db) : option Db :=
  match find (username_is "admin") (users d) with
  | Some _ => Some d
  | None =>
      insert_user "admin" "admin@example.com"
                  (generate_password_hash salt "admin123") true d
  end.

End Accounts.

(** ** Customer listings *)

(** [GET /] *)
Definition index : view := fun w =>
  (Render (MenuPage (categories (db w))), w).

(** [GET /menu] *)
Definition customer_menu : view := login_required_view (fun w =>
  let categories := categories (db w) in
  (Render (MenuPage categories), w)).

Section Listings.

(** [.order_by(Order.created_at.desc())]: the order of the rows by a
    column that is not in [Order]. *)
Variable newest_first : list Order -> list Order.

(** [GET /my_orders] *)
Definition my_orders : view := login_required_view (fun w =>
  match user_id (session w) with
  | None => (Std (Raise KeyError), w)
  | Some uid =>
      let orders := newest_first
                      (List.filter (fun o => o_user_id o =? uid) (orders (db w))) in
      (Render (OrdersPage orders), w)
  end).

(** [Order.query.filter_by(status=s)] *)
Definition with_status (s : string) (rows : list Order) : list Order :=
  List.filter (fun o => String.eqb (o_status o) s) rows.

(** [GET /admin/orders]; [args] is [request.args]. *)
Definition admin_orders (args : gmap string string) : view := admin_required_view (fun w =>
  let status_filter := default "all" (args !! "status") in
  let orders :=
    if String.eqb status_filter "pending" then
      newest_first (with_status "Pending" (orders (db w)))
    else if String.eqb status_filter "completed" then
      newest_first (with_status "Completed" (orders (db w)))
    else newest_first (orders (db w)) in
  (Render (AdminOrdersPage orders status_filter), w)).

End Listings.

(** ** Administration *)

(** [GET /admin] *)
Definition admin_dashboard : view := admin_required_view (fun w =>
  let total_orders := length (orders (db w)) in
  let pending_orders := length (with_status "Pending" (orders (db w))) in
  let completed_orders := length (with_status "Completed" (orders (db w))) in
  let total_users := length (users (db w)) in
  (Render (DashboardPage total_orders pending_orders completed_orders total_users), w)).

(** [GET /admin/menu] *)
Definition admin_menu : view := admin_required_view (fun w =>
  let categories := categories (db w) in
  let items := menu_items (db w) in
  (Render (AdminMenuPage categories items), w)).

(** [POST /admin/add_category] *)
Definition add_category (form : gmap string string) : view := admin_required_view (fun w =>
  let name := form !! "name" in
  if negb (truthy_str name) then
    (Std (Redirect "admin_menu" None), flash "Category name is required" "danger" w)
  else
    match find (name_is (default "" name)) (categories (db w)) with
    | Some _ =>
        (Std (Redirect "admin_menu" None), flash "Category already exists" "danger" w)
    | None =>
        match insert_category (default "" name) (db w) with
        | None => (IntegrityError, w)
        | Some d' =>
            (Std (Redirect "admin_menu" None),
             flash "Category added successfully" "success" (set_db d' w))
        end
    end).

(** [GET /admin/users] *)
Definition admin_users : view := admin_required_view (fun w =>
  let users := users (db w) in
  (Render (AdminUsersPage users), w)).

(** [user.is_admin = True] followed by the commit. *)
Definition promote (target : Z) (rows : list User) : list User :=
  map (fun u => if u_id u =? target
                then {| u_id := u_id u; u_username := u_username u; u_email := u_email u;
                        u_password := u_password u; u_is_admin := true |}
                else u) rows.

(** [GET /admin/make_admin/<int:user_id>] *)
Definition make_admin (target : Z) : view := admin_required_view (fun w =>
  match query_get u_id (users (db w)) target with
  | None => (Std (no_row target), w)
  | Some user =>
      let d := db w in
      let d' := {| users := promote (u_id user) (users d); categories := categories d;
                   menu_items := menu_items d; orders := orders d;
                   order_items := order_items d |} in
      (Std (Redirect "admin_users" None),
       flash (String.append (u_username user) " is now an admin") "success" (set_db d' w))
  end).

(** ** Further definitions for the properties *)

(** The unique columns of the user table hold no value twice. *)
Definition users_unique (us : list User) : Prop :=
  NoDup (map u_id us) /\ NoDup (map u_username us) /\ NoDup (map u_email us).

(** The unique columns of the category table hold no value twice. *)
Definition categories_unique (cs : list Category) : Prop :=
  NoDup (map c_id cs) /\ NoDup (map c_name cs).

(** The session is anonymous or belongs to a user who is not an admin. *)
Definition no_admin_rights (w : World) : Prop :=
  match user_id (session w) with
  | None => True
  | Some uid =>
      exists u, query_get u_id (users (db w)) uid = Some u /\ u_is_admin u = false
  end.

(** No table holds a primary key twice. *)
Definition keys_unique (d : Db) : Prop :=
  NoDup (map u_id (users d)) /\ NoDup (map c_id (categories d)) /\
  NoDup (map mi_id (menu_items d)) /\ NoDup (map o_id (orders d)) /\
  NoDup (map oi_id (order_items d)).

(** The number of orders of the table that are in the status [s]. *)
Definition orders_in_status (s : string) (rows : list Order) : nat :=
  length (filter (fun o => o_status o = s) rows).

(** The number of items in the cart, quantities counted. *)
Definition cart_count (cart : list CartEntry) : Z :=
  fold_right Z.add 0 (map ce_quantity cart).

(** The sum, as [cart_total] computes it, over stored order rows. *)
Definition rows_total (rows : list OrderItem) : result num :=
  builtin_sum (fun r => mul (Float (oi_price r)) (Int (oi_quantity r))) rows.

(** A toy password hashing for the sample data: the hash ends with the
    password, after the salt. *)
Definition sample_hash (salt password : string) : string :=
  String.append "sha256$" (String.append salt (String.append "$" password)).

Definition sample_check (pwhash password : string) : bool :=
  let tail := String.append "$" password in
  String.eqb (substring (String.length pwhash - String.length tail) (String.length tail) pwhash)
             tail.

Definition carol_form : gmap string string :=
  <["username" := "carol"]> (<["email" := "carol@example.com"]> {["password" := "pw"]}).

(** The sample world seen by a visitor who is not logged in. *)
Definition visitor : World :=
  {| db := sample_db; session := {| user_id := None; cart := None |}; flashes := [] |}.

(** The admin of the sample store, logged in. *)
Definition admin_fresh : World :=
  {| db := sample_db; session := {| user_id := Some 1; cart := None |}; flashes := [] |}.

(* ===================================================================== *)
(** * The builtins on sample inputs *)
(* ===================================================================== *)

Example float_of_str_accepts :
  map float_of_str ["5"; "-5"; " 3.50 "; "1e3"; "1_000.5"; ".5"; "5."; "-0.0"; "25E-2"]
  = map Ok [5; -5; 3.5; 1000; 1000.5; 0.5; 5; -0; 0.25]%float.
Proof. reflexivity. Qed.

Example float_of_str_special :
  map float_of_str ["inf"; "-Infinity"; "NaN"; "1e400"]
  = map Ok [infinity; neg_infinity; nan; infinity].
Proof. reflexivity. Qed.

Example float_of_str_rejects :
  map float_of_str [""; "."; "abc"; "1e"; "1__0"; "_1"; "1_"; "- 5"; "0x10"; "12 3"]
  = repeat (Raised ValueError) 10.
Proof. reflexivity. Qed.

Example int_of_str_samples :
  map int_of_str ["5"; "-5"; " 3 "; "1_000"; "007"; "+7"; ""; "abc"; "5.0"; "1__0"]
  = [Ok 5; Ok (-5); Ok 3; Ok 1000; Ok 7; Ok 7; Raised ValueError; Raised ValueError;
     Raised ValueError; Raised ValueError].
Proof. reflexivity. Qed.

Example float_of_int_bounds :
  float_of_int 3 = Ok 3%float /\
  float_of_int (2 ^ 1024) = Raised OverflowError /\
  float_of_int (2 ^ 53 + 1) = Ok 9007199254740992%float.
Proof. vm_compute. repeat split. Qed.

Example int_of_str_digit_limit :
  int_of_str (string_of_list_ascii (repeat "1"%char 4300)) <> Raised ValueError /\
  int_of_str (string_of_list_ascii (repeat "1"%char 4301)) = Raised ValueError.
Proof. split; [vm_compute; discriminate | vm_compute; reflexivity]. Qed.

Example strip_ascii_white_space_only :
  float_of_str (String (ascii_of_nat 9) "4.5 ") = Ok 4.5%float /\
  float_of_str (String (ascii_of_nat 28) "4.5") = Raised ValueError /\
  int_of_str (String "1" (String (ascii_of_nat 31) "")) = Raised ValueError.
Proof. vm_compute. repeat split. Qed.

Example truthy_float_samples :
  map truthy_float [0; -0; 5; -5; nan]%float = [false; false; true; true; true].
Proof. reflexivity. Qed.

(* ===================================================================== *)
(** * Access guards: basic facts *)
(* ===================================================================== *)

Lemma login_required_logged_in (f : handler) (w : World) (uid : Z) :
  user_id (session w) = Some uid -> login_required f w = f w.
Proof. intros H. unfold login_required. now rewrite H. Qed.

Lemma login_required_anonymous (f : handler) (w : World) :
  user_id (session w) = None ->
  login_required f w =
    (Redirect "login" None, flash "Please log in to access this page." "danger" w).
Proof. intros H. unfold login_required. now rewrite H. Qed.

Lemma admin_required_admin (f : handler) (w : World) (u : User) :
  admin_session w u -> admin_required f w = f w.
Proof.
  intros (Hs & Hq & Ha). unfold admin_required.
  now rewrite Hs, Hq, Ha.
Qed.

(** Whatever the guard decides, it does not touch the store or the
    session by itself. *)
Lemma admin_required_frame (f : handler) (w : World) :
  (forall w0, db (snd (f w0)) = db w0 /\ session (snd (f w0)) = session w0) ->
  db (snd (admin_required f w)) = db w /\ session (snd (admin_required f w)) = session w.
Proof.
  intros Hf. unfold admin_required.
  destruct (user_id (session w)) as [uid|]; [|now split].
  destruct (query_get u_id (users (db w)) uid) as [u|]; [|now split].
  destruct (u_is_admin u); simpl; [apply Hf | now split].
Qed.

Lemma login_required_frame (f : handler) (w : World) :
  (forall w0, db (snd (f w0)) = db w0 /\ session (snd (f w0)) = session w0) ->
  db (snd (login_required f w)) = db w /\ session (snd (login_required f w)) = session w.
Proof.
  intros Hf. unfold login_required.
  destruct (user_id (session w)); [apply Hf | now split].
Qed.

(* ===================================================================== *)
(** * Checkout with an empty cart *)
(* ===================================================================== *)

(** C4. Whenever the session cart is empty (absent or the empty list), a
    checkout request leaves the persisted store unchanged, so no Order and
    no OrderItem is created, and a logged-in customer is sent back to the
    menu with the warning "Your cart is empty". *)
Theorem checkout_empty_cart (w : World) :
  session_cart w = [] ->
  db (snd (checkout w)) = db w /\
  session (snd (checkout w)) = session w /\
  forall uid, user_id (session w) = Some uid ->
    checkout w = (Redirect "customer_menu" None, flash "Your cart is empty" "warning" w).
Proof.
  intros Hc. unfold checkout, login_required. rewrite Hc.
  destruct (user_id (session w)) as [uid|]; simpl.
  - split; [reflexivity | split; [reflexivity | intros ? _; reflexivity]].
  - split; [reflexivity | split; [reflexivity | intros ? [=]]].
Qed.

Lemma checkout_empty_cart_witness :
  db (snd (checkout alice_fresh)) = db alice_fresh /\
  session (snd (checkout alice_fresh)) = session alice_fresh /\
  forall uid, user_id (session alice_fresh) = Some uid ->
    checkout alice_fresh =
      (Redirect "customer_menu" None, flash "Your cart is empty" "warning" alice_fresh).
Proof. apply (checkout_empty_cart alice_fresh). reflexivity. Defined.

(* ===================================================================== *)
(** * update_cart with an index out of range *)
(* ===================================================================== *)

(** C10. For every cart and every index outside [0, len(cart)), an
    update_cart request leaves the session (hence the cart) and the store
    unchanged and raises nothing, whatever the form holds; for a logged-in
    customer the answer is the redirect to the cart view and the world is
    exactly the one before. *)
Theorem update_cart_out_of_range (index : Z) (form : gmap string string) (w : World) :
  ~ (0 <= index < Z.of_nat (length (session_cart w))) ->
  session (snd (update_cart index form w)) = session w /\
  db (snd (update_cart index form w)) = db w /\
  (forall e, fst (update_cart index form w) <> Raise e) /\
  forall uid, user_id (session w) = Some uid ->
    update_cart index form w = (Redirect "view_cart" None, w).
Proof.
  intros Hout. unfold update_cart, login_required.
  assert (Hg : (0 <=? index) && (index <? Z.of_nat (length (session_cart w))) = false).
  { apply andb_false_iff.
    destruct (Z.leb_spec 0 index); [right | now left].
    apply Z.ltb_ge. lia. }
  rewrite Hg.
  destruct (user_id (session w)); simpl;
    (split; [reflexivity | split; [reflexivity | split]]);
    try discriminate; intros ? [=]; reflexivity.
Qed.

Lemma update_cart_out_of_range_witness :
  session (snd (update_cart 2 {["action" := "remove"]} alice_shopping))
    = session alice_shopping /\
  db (snd (update_cart 2 {["action" := "remove"]} alice_shopping)) = db alice_shopping /\
  (forall e, fst (update_cart 2 {["action" := "remove"]} alice_shopping) <> Raise e) /\
  forall uid, user_id (session alice_shopping) = Some uid ->
    update_cart 2 {["action" := "remove"]} alice_shopping
      = (Redirect "view_cart" None, alice_shopping).
Proof.
  apply (update_cart_out_of_range 2 {["action" := "remove"]} alice_shopping).
  vm_compute. intros [_ H]. discriminate H.
Defined.

(* ===================================================================== *)
(** * update_order_status *)
(* ===================================================================== *)

Lemma form_is_true (x : option string) (s : string) :
  form_is x s = true <-> x = Some s.
Proof.
  destruct x as [t|]; simpl.
  - rewrite String.eqb_eq. split; [now intros -> | now intros [= ->]].
  - split; discriminate.
Qed.

Lemma allowed_status_true (x : option string) :
  allowed_status x = true <->
  x = Some "Pending" \/ x = Some "Completed" \/ x = Some "Cancelled".
Proof.
  unfold allowed_status. rewrite !orb_true_iff, !form_is_true. tauto.
Qed.

Lemma allowed_status_false (x : option string) :
  x <> Some "Pending" -> x <> Some "Completed" -> x <> Some "Cancelled" ->
  allowed_status x = false.
Proof.
  intros H1 H2 H3. destruct (allowed_status x) eqn:E; [|reflexivity].
  apply allowed_status_true in E. tauto.
Qed.

(** C3. For every order and every status value outside {Pending, Completed,
    Cancelled} (a missing status field included), an update_order_status
    request leaves the store and the session unchanged; sent by an admin
    for an existing order it is answered with the error message
    "Invalid status" and the redirect to the order list. *)
Theorem update_order_status_invalid
    (order_id : Z) (form : gmap string string) (w : World) :
  form !! "status" <> Some "Pending" ->
  form !! "status" <> Some "Completed" ->
  form !! "status" <> Some "Cancelled" ->
  db (snd (update_order_status order_id form w)) = db w /\
  session (snd (update_order_status order_id form w)) = session w /\
  forall u order,
    admin_session w u ->
    query_get o_id (orders (db w)) order_id = Some order ->
    update_order_status order_id form w =
      (Redirect "admin_orders" None, flash "Invalid status" "danger" w).
Proof.
  intros H1 H2 H3.
  pose proof (allowed_status_false _ H1 H2 H3) as Hna.
  unfold update_order_status.
  split; [|split].
  - apply admin_required_frame. intros w0.
    destruct (query_get o_id (orders (db w0)) order_id); [|now split].
    rewrite Hna. now split.
  - apply admin_required_frame. intros w0.
    destruct (query_get o_id (orders (db w0)) order_id); [|now split].
    rewrite Hna. now split.
  - intros u order Hadm Hq.
    rewrite (admin_required_admin _ _ _ Hadm), Hq, Hna. reflexivity.
Qed.

Lemma update_order_status_invalid_witness :
  db (snd (update_order_status 1 {["status" := "Shipped"]} admin_after)) = db admin_after /\
  session (snd (update_order_status 1 {["status" := "Shipped"]} admin_after))
    = session admin_after /\
  forall u order,
    admin_session admin_after u ->
    query_get o_id (orders (db admin_after)) 1 = Some order ->
    update_order_status 1 {["status" := "Shipped"]} admin_after =
      (Redirect "admin_orders" None, flash "Invalid status" "danger" admin_after).
Proof.
  apply (update_order_status_invalid 1 {["status" := "Shipped"]} admin_after);
    vm_compute; discriminate.
Defined.

Lemma query_get_pk {R : Type} (pk : R -> Z) (rows : list R) (id : Z) (r : R) :
  query_get pk rows id = Some r -> pk r = id.
Proof.
  unfold query_get. intros H. apply find_some in H as [_ H]. now apply Z.eqb_eq.
Qed.

Lemma query_get_set_status (rows : list Order) (order_id id : Z) (s : string) :
  query_get o_id (set_status order_id s rows) id =
  (fun o => if o_id o =? order_id
            then {| o_id := o_id o; o_user_id := o_user_id o;
                    o_total := o_total o; o_status := s |}
            else o) <$> query_get o_id rows id.
Proof.
  unfold query_get, set_status.
  induction rows as [|o rows IH]; simpl; [reflexivity|].
  destruct (o_id o =? order_id) eqn:E; simpl;
    destruct (o_id o =? id) eqn:E'; simpl; try rewrite E; auto.
Qed.

(** C2, counterexample. The claim that Completed and Cancelled are terminal fails: the admin
    moves alice's order to Completed and then back to Pending. *)
Lemma completed_order_reopened : ~ terminal_states.
Proof.
  intros H.
  specialize (H 1 {["status" := "Pending"]}
                (snd (update_order_status 1 {["status" := "Completed"]} admin_after))
                "Completed" eq_refl (or_introl eq_refl)).
  vm_compute in H. discriminate H.
Qed.

(** C2, as the code has it. update_order_status has no guard on the current
    status: a request by an admin for an existing order with a status among
    Pending, Completed and Cancelled is accepted and stores the requested
    status whatever the order's status was, so every transition among the
    three values is allowed; the other columns of the order and the other
    orders are left as they were. *)
Theorem update_order_status_accepts
    (order_id : Z) (form : gmap string string) (w : World)
    (u : User) (order : Order) (s : string) :
  admin_session w u ->
  query_get o_id (orders (db w)) order_id = Some order ->
  form !! "status" = Some s ->
  s = "Pending" \/ s = "Completed" \/ s = "Cancelled" ->
  let w' := snd (update_order_status order_id form w) in
  fst (update_order_status order_id form w) = Redirect "admin_orders" None /\
  flashes w' = flashes w ++ [("Order status updated", "success")] /\
  query_get o_id (orders (db w')) order_id =
    Some {| o_id := order_id; o_user_id := o_user_id order;
            o_total := o_total order; o_status := s |} /\
  (forall id, id <> order_id ->
     query_get o_id (orders (db w')) id = query_get o_id (orders (db w)) id) /\
  length (orders (db w')) = length (orders (db w)) /\
  order_items (db w') = order_items (db w).
Proof.
  intros Hadm Hq Hs Hin. simpl.
  assert (Hal : allowed_status (form !! "status") = true).
  { apply allowed_status_true. rewrite Hs.
    destruct Hin as [-> | [-> | ->]]; auto. }
  pose proof (query_get_pk _ _ _ _ Hq) as Hid.
  unfold update_order_status.
  rewrite (admin_required_admin _ _ _ Hadm), Hq, Hal, Hs. simpl.
  repeat split.
  - rewrite query_get_set_status, Hq. simpl. rewrite Hid, Z.eqb_refl.
    congruence.
  - intros id Hne. rewrite query_get_set_status.
    destruct (query_get o_id (orders (db w)) id) as [o|] eqn:E; [|reflexivity].
    simpl. apply query_get_pk in E. rewrite E, Hid.
    destruct (Z.eqb_spec id order_id); [contradiction | reflexivity].
  - unfold set_status. now rewrite length_map.
Qed.

Lemma update_order_status_accepts_witness :
  let w := snd (update_order_status 1 {["status" := "Completed"]} admin_after) in
  let w' := snd (update_order_status 1 {["status" := "Pending"]} w) in
  fst (update_order_status 1 {["status" := "Pending"]} w) = Redirect "admin_orders" None /\
  flashes w' = flashes w ++ [("Order status updated", "success")] /\
  query_get o_id (orders (db w')) 1 =
    Some {| o_id := 1; o_user_id := 2; o_total := 13.5; o_status := "Pending" |} /\
  (forall id, id <> 1 ->
     query_get o_id (orders (db w')) id = query_get o_id (orders (db w)) id) /\
  length (orders (db w')) = length (orders (db w)) /\
  order_items (db w') = order_items (db w).
Proof.
  apply (update_order_status_accepts 1 {["status" := "Pending"]}
           (snd (update_order_status 1 {["status" := "Completed"]} admin_after))
           sample_admin
           {| o_id := 1; o_user_id := 2; o_total := 13.5; o_status := "Completed" |}
           "Pending").
  - vm_compute. repeat split.
  - vm_compute. reflexivity.
  - vm_compute. reflexivity.
  - left. reflexivity.
Defined.

(* ===================================================================== *)
(** * order_confirmation *)
(* ===================================================================== *)

(** C7, counterexample. The claim that a non-owner always gets the authorization error fails
    when the order does not exist: alice asks for order 1 before any order
    was placed and the answer is the 404 of get_or_404. *)
Lemma missing_order_is_not_found : ~ non_owner_always_unauthorized.
Proof.
  intros H.
  specialize (H 1 alice_fresh 2 eq_refl).
  assert (Hq : forall order,
             query_get o_id (orders (db alice_fresh)) 1 = Some order ->
             o_user_id order <> 2) by (intros order [=]).
  specialize (H Hq). vm_compute in H. discriminate H.
Qed.

Lemma fits_integer_true (z : Z) : fits_integer z = true <-> - 2 ^ 63 <= z < 2 ^ 63.
Proof. unfold fits_integer. rewrite andb_true_iff, Z.leb_le, Z.ltb_lt. tauto. Qed.

Lemma no_row_in_range (id : Z) : - 2 ^ 63 <= id < 2 ^ 63 -> no_row id = NotFound.
Proof. intros H. unfold no_row. now rewrite (proj2 (fits_integer_true id) H). Qed.

Lemma no_row_out_of_range (id : Z) :
  ~ (- 2 ^ 63 <= id < 2 ^ 63) -> no_row id = Raise OverflowError.
Proof.
  intros H. unfold no_row. destruct (fits_integer id) eqn:E; [|reflexivity].
  now apply fits_integer_true in E.
Qed.

(** C7, as the code has it. A logged-in customer who is not the owner of
    the requested order never gets the confirmation page: when the order
    exists the answer is the authorization error and the redirect to the
    menu; when it does not exist the answer is the not-found response of
    get_or_404, or, for an id that is no 64-bit integer, the OverflowError
    of the lookup. Nothing is written. *)
Theorem order_confirmation_non_owner (order_id : Z) (w : World) (uid : Z) :
  user_id (session w) = Some uid ->
  (forall order, query_get o_id (orders (db w)) order_id = Some order ->
                 o_user_id order <> uid) ->
  (forall order, query_get o_id (orders (db w)) order_id = Some order ->
     order_confirmation order_id w =
       (Redirect "customer_menu" None,
        flash "You are not authorized to view this order" "danger" w)) /\
  (query_get o_id (orders (db w)) order_id = None ->
     - 2 ^ 63 <= order_id < 2 ^ 63 ->
     order_confirmation order_id w = (NotFound, w)) /\
  (query_get o_id (orders (db w)) order_id = None ->
     ~ (- 2 ^ 63 <= order_id < 2 ^ 63) ->
     order_confirmation order_id w = (Raise OverflowError, w)) /\
  (forall order, fst (order_confirmation order_id w) <> RenderOrderConfirmation order) /\
  db (snd (order_confirmation order_id w)) = db w.
Proof.
  intros Hu Hown. unfold order_confirmation.
  rewrite (login_required_logged_in _ _ _ Hu), Hu.
  destruct (query_get o_id (orders (db w)) order_id) as [o|] eqn:Hq.
  - assert (Hne : negb (o_user_id o =? uid) = true).
    { apply negb_true_iff, Z.eqb_neq. now apply Hown. }
    rewrite Hne. simpl.
    split; [intros ? _; reflexivity|].
    split; [discriminate|].
    split; [discriminate|].
    split; [discriminate | reflexivity].
  - simpl. split; [discriminate|].
    split; [intros _ Hr; now rewrite (no_row_in_range _ Hr)|].
    split; [intros _ Hr; now rewrite (no_row_out_of_range _ Hr)|].
    split; [|reflexivity].
    intros order. unfold no_row. destruct (fits_integer order_id); discriminate.
Qed.

Lemma order_confirmation_non_owner_witness :
  (forall order, query_get o_id (orders (db bob_after)) 1 = Some order ->
     order_confirmation 1 bob_after =
       (Redirect "customer_menu" None,
        flash "You are not authorized to view this order" "danger" bob_after)) /\
  (query_get o_id (orders (db bob_after)) 1 = None ->
     - 2 ^ 63 <= 1 < 2 ^ 63 ->
     order_confirmation 1 bob_after = (NotFound, bob_after)) /\
  (query_get o_id (orders (db bob_after)) 1 = None ->
     ~ (- 2 ^ 63 <= 1 < 2 ^ 63) ->
     order_confirmation 1 bob_after = (Raise OverflowError, bob_after)) /\
  (forall order, fst (order_confirmation 1 bob_after) <> RenderOrderConfirmation order) /\
  db (snd (order_confirmation 1 bob_after)) = db bob_after.
Proof.
  apply (order_confirmation_non_owner 1 bob_after 3).
  - reflexivity.
  - vm_compute. intros order H. injection H as <-. simpl. discriminate.
Defined.

(** An order id of 2^63, which the route accepts, is answered with the
    OverflowError of the lookup. *)
Example order_confirmation_huge_id :
  order_confirmation (2 ^ 63) alice_fresh = (Raise OverflowError, alice_fresh).
Proof. reflexivity. Qed.

(** The owner does get the page: the denial above is about non-owners only. *)
Lemma order_confirmation_owner (order_id : Z) (w : World) (order : Order) :
  user_id (session w) = Some (o_user_id order) ->
  query_get o_id (orders (db w)) order_id = Some order ->
  order_confirmation order_id w = (RenderOrderConfirmation order, w).
Proof.
  intros Hu Hq. unfold order_confirmation.
  rewrite (login_required_logged_in _ _ _ Hu), Hq, Hu, Z.eqb_refl. reflexivity.
Qed.

(* ===================================================================== *)
(** * add_item *)
(* ===================================================================== *)

(** C8, counterexample. The claim that every stored price is positive fails: the form with
    price "-5" is accepted and the item is stored with price -5.0. *)
Lemma negative_price_stored : ~ stored_price_positive.
Proof.
  intros H.
  specialize (H (soup_form "-5") admin_after
                (mkMenuItem 3 "Soup" None (-5) (Some "default.jpg") 1) eq_refl).
  vm_compute in H. discriminate H.
Qed.

(** The handlers that do not store anything leave the menu as it was, so
    a menu that grew by one row was grown by the storing branch. *)
Lemma app_singleton_neq {A : Type} (l : list A) (x : A) : l <> l ++ [x].
Proof.
  intros H. apply (f_equal (@length A)) in H. rewrite length_app in H. simpl in H. lia.
Qed.

(** C8, as the code has it. Every menu item stored by add_item has a price
    different from zero (the check is [not price]); the price may be
    negative. The stored name is non-empty and the category id is not 0. *)
Theorem add_item_price_nonzero
    (form : gmap string string) (w : World) (item : MenuItem) :
  menu_items (db (snd (add_item form w))) = menu_items (db w) ++ [item] ->
  PrimFloat.eqb (mi_price item) 0 = false /\
  builtin_float (form !! "price") = Ok (mi_price item) /\
  form !! "name" = Some (mi_name item) /\ mi_name item <> "" /\
  mi_category_id item <> 0.
Proof.
  unfold add_item, admin_required.
  destruct (user_id (session w)) as [uid|];
    [| intros H; simpl in H; now apply app_singleton_neq in H].
  destruct (query_get u_id (users (db w)) uid) as [u|];
    [| intros H; simpl in H; now apply app_singleton_neq in H].
  destruct (u_is_admin u); simpl;
    [| intros H; now apply app_singleton_neq in H].
  destruct (builtin_float (form !! "price")) as [price|e];
    [| intros H; simpl in H; now apply app_singleton_neq in H].
  destruct (builtin_int (form !! "category_id")) as [cid|e];
    [| intros H; simpl in H; now apply app_singleton_neq in H].
  destruct (truthy_str (form !! "name")) eqn:En; simpl;
    [| intros H; now apply app_singleton_neq in H].
  destruct (truthy_float price) eqn:Ep; simpl;
    [| intros H; now apply app_singleton_neq in H].
  destruct (truthy_int cid) eqn:Ec; simpl;
    [| intros H; now apply app_singleton_neq in H].
  destruct (fits_integer cid); simpl;
    [| intros H; now apply app_singleton_neq in H].
  destruct (stored_real price); simpl;
    [| intros H; now apply app_singleton_neq in H].
  intros H. apply app_inj_tail in H as [_ <-]. simpl.
  unfold truthy_float in Ep. apply negb_true_iff in Ep.
  unfold truthy_int in Ec. apply negb_true_iff, Z.eqb_neq in Ec.
  unfold truthy_str in En. destruct (form !! "name") as [n|]; [|discriminate].
  apply negb_true_iff, String.eqb_neq in En. simpl.
  repeat split; auto.
Qed.

Lemma add_item_price_nonzero_witness :
  PrimFloat.eqb (-5) 0 = false /\
  builtin_float (soup_form "-5" !! "price") = Ok (-5)%float /\
  soup_form "-5" !! "name" = Some "Soup" /\ "Soup" <> "" /\ 1 <> 0.
Proof.
  apply (add_item_price_nonzero (soup_form "-5") admin_after
           (mkMenuItem 3 "Soup" None (-5) (Some "default.jpg") 1)).
  vm_compute. reflexivity.
Defined.

(** A conversion that raises ends add_item before its check of the
    required fields, for every admin and every form. *)
Lemma add_item_price_raises
    (form : gmap string string) (w : World) (u : User) (e : exn) :
  admin_session w u ->
  builtin_float (form !! "price") = Raised e ->
  add_item form w = (Raise e, w).
Proof.
  intros Hadm Hp. unfold add_item.
  now rewrite (admin_required_admin _ _ _ Hadm), Hp.
Qed.

Lemma add_item_category_raises
    (form : gmap string string) (w : World) (u : User) (price : float) (e : exn) :
  admin_session w u ->
  builtin_float (form !! "price") = Ok price ->
  builtin_int (form !! "category_id") = Raised e ->
  add_item form w = (Raise e, w).
Proof.
  intros Hadm Hp Hc. unfold add_item.
  now rewrite (admin_required_admin _ _ _ Hadm), Hp, Hc.
Qed.

(** With all three fields well-formed, an empty name, a zero price or a
    zero category is answered with the message and nothing is stored. *)
Lemma add_item_rejects_falsy
    (form : gmap string string) (w : World) (u : User) (price : float) (cid : Z) :
  admin_session w u ->
  builtin_float (form !! "price") = Ok price ->
  builtin_int (form !! "category_id") = Ok cid ->
  truthy_str (form !! "name") = false \/ PrimFloat.eqb price 0 = true \/ cid = 0 ->
  add_item form w =
    (Redirect "admin_menu" None, flash "Name, price and category are required" "danger" w).
Proof.
  intros Hadm Hp Hc Hf. unfold add_item.
  rewrite (admin_required_admin _ _ _ Hadm), Hp, Hc.
  replace (negb (truthy_str (form !! "name")) || negb (truthy_float price)
           || negb (truthy_int cid)) with true; [reflexivity|].
  symmetry. rewrite !orb_true_iff, !negb_true_iff.
  unfold truthy_float, truthy_int. rewrite !negb_false_iff, Z.eqb_eq.
  tauto.
Qed.

(** C9. The conversions of add_item run before its check of the required
    fields: with the price field missing the handler raises TypeError,
    with a malformed price or category it raises ValueError; neither is
    turned into the message "Name, price and category are required". *)
Theorem add_item_bad_field_raises :
  add_item (<["name" := "Soup"]> {["category_id" := "1"]}) admin_after
    = (Raise TypeError, admin_after) /\
  add_item (soup_form "abc") admin_after = (Raise ValueError, admin_after) /\
  add_item (<["name" := "Soup"]> {["price" := "4.5"]}) admin_after
    = (Raise TypeError, admin_after) /\
  add_item (<["name" := "Soup"]> (<["price" := "4.5"]> {["category_id" := ""]})) admin_after
    = (Raise ValueError, admin_after).
Proof. vm_compute. repeat split. Qed.

(* ===================================================================== *)
(** * The session cart *)
(* ===================================================================== *)

Lemma session_cart_set_cart (c : list CartEntry) (w : World) :
  session_cart (set_cart (Some c) w) = c.
Proof. reflexivity. Qed.

(** The cart after [add_to_cart], by cases on the guard and the lookup. *)
Lemma add_to_cart_session_cart (item_id : Z) (w : World) :
  session_cart (snd (add_to_cart item_id w)) =
    match user_id (session w), query_get mi_id (menu_items (db w)) item_id with
    | Some _, Some item =>
        match add_existing (mi_id item) (session_cart w) with
        | Some cart' => cart'
        | None => session_cart w ++ [new_entry item]
        end
    | _, _ => session_cart w
    end.
Proof.
  unfold add_to_cart, login_required.
  destruct (user_id (session w)) as [uid|]; [|reflexivity].
  cbv zeta.
  set (w1 := match cart (session w) with
             | Some _ => w
             | None => set_cart (Some []) w
             end).
  assert (Hc : session_cart w1 = session_cart w)
    by (subst w1; unfold session_cart; destruct (cart (session w)) eqn:E; simpl; rewrite ?E; reflexivity).
  assert (Hd : db w1 = db w)
    by (subst w1; destruct (cart (session w)); reflexivity).
  rewrite Hd, Hc.
  destruct (query_get mi_id (menu_items (db w)) item_id) as [item|]; [|exact Hc].
  destruct (add_existing (mi_id item) (session_cart w)); reflexivity.
Qed.

(** The cart after [update_cart]. *)
Lemma update_cart_session_cart (index : Z) (form : gmap string string) (w : World) :
  session_cart (snd (update_cart index form w)) =
    match user_id (session w) with
    | Some _ =>
        if (0 <=? index) && (index <? Z.of_nat (length (session_cart w)))
        then apply_action (form !! "action") (Z.to_nat index) (session_cart w)
        else session_cart w
    | None => session_cart w
    end.
Proof.
  unfold update_cart, login_required.
  destruct (user_id (session w)); [|reflexivity].
  destruct ((0 <=? index) && (index <? Z.of_nat (length (session_cart w)))); reflexivity.
Qed.

(** An index that passes the range check of update_cart addresses the
    list stored in the session: the default list of [session.get] is empty,
    so the in-place update is an update of the session's own cart. *)
Lemma in_range_cart_present (index : Z) (w : World) :
  0 <= index < Z.of_nat (length (session_cart w)) ->
  cart (session w) = Some (session_cart w).
Proof.
  unfold session_cart. destruct (cart (session w)); simpl; [reflexivity | lia].
Qed.

(** add_to_cart keeps the user logged in and, for an item on the menu,
    answers with the redirect to the menu. *)
Lemma add_to_cart_user_id (item_id : Z) (w : World) :
  user_id (session (snd (add_to_cart item_id w))) = user_id (session w).
Proof.
  unfold add_to_cart, login_required.
  destruct (user_id (session w)) as [uid|] eqn:Hu; [|exact Hu].
  cbv zeta.
  destruct (cart (session w)); simpl;
    destruct (query_get mi_id (menu_items (db w)) item_id) as [item|]; simpl; auto;
    match goal with |- context [add_existing ?a ?b] => destruct (add_existing a b) end;
    simpl; assumption.
Qed.

Lemma add_to_cart_response (item_id : Z) (w : World) (uid : Z) (item : MenuItem) :
  user_id (session w) = Some uid ->
  query_get mi_id (menu_items (db w)) item_id = Some item ->
  fst (add_to_cart item_id w) = Redirect "customer_menu" None.
Proof.
  intros Hu Hq. unfold add_to_cart. rewrite (login_required_logged_in _ _ _ Hu).
  cbv zeta.
  replace (db (match cart (session w) with
               | Some _ => w
               | None => set_cart (Some []) w
               end)) with (db w) by (destruct (cart (session w)); reflexivity).
  rewrite Hq.
  match goal with |- context [add_existing ?a ?b] => destruct (add_existing a b) end;
    reflexivity.
Qed.

(** ** The loop of add_to_cart *)

Lemma add_existing_Some (id : Z) (cart cart' : list CartEntry) :
  add_existing id cart = Some cart' ->
  exists (i : nat) (e : CartEntry),
    cart !! i = Some e /\ ce_id e = id /\
    (forall (j : nat) (e' : CartEntry), (j < i)%nat -> cart !! j = Some e' -> ce_id e' <> id) /\
    cart' = <[i := add_quantity 1 e]> cart.
Proof.
  revert cart'. induction cart as [|x r IH]; intros cart' H; simpl in H; [discriminate|].
  destruct (Z.eqb_spec (ce_id x) id) as [Heq|Hne].
  - injection H as <-. exists 0%nat, x. repeat split; auto. intros j e' Hj. lia.
  - destruct (add_existing id r) as [r'|]; [|discriminate].
    injection H as <-. destruct (IH r' eq_refl) as (i & e & Hi & He & Hfirst & ->).
    exists (S i), e. repeat split; auto.
    intros [|j] e' Hj Hl; simpl in Hl.
    + now injection Hl as <-.
    + apply (Hfirst j e'); [lia | assumption].
Qed.

Lemma add_existing_None (id : Z) (cart : list CartEntry) :
  add_existing id cart = None <-> (forall e, e ∈ cart -> ce_id e <> id).
Proof.
  induction cart as [|x r IH]; simpl.
  - split; [intros _ e He; inversion He | reflexivity].
  - destruct (Z.eqb_spec (ce_id x) id) as [Heq|Hne].
    + split; [discriminate|]. intros H. exfalso. apply (H x); [left | assumption].
    + destruct (add_existing id r) as [r'|].
      * split; [discriminate|]. intros H.
        assert (Hr : Some r' = None) by (apply IH; intros e He; apply H; now right).
        discriminate Hr.
      * split; [|reflexivity]. intros _ e He.
        apply elem_of_cons in He as [-> | He]; [assumption|].
        now apply (proj1 IH eq_refl).
Qed.

Lemma add_existing_ids (id : Z) (cart cart' : list CartEntry) :
  add_existing id cart = Some cart' -> map ce_id cart' = map ce_id cart.
Proof.
  revert cart'. induction cart as [|x r IH]; intros cart' H; simpl in H; [discriminate|].
  destruct (ce_id x =? id).
  - now injection H as <-.
  - destruct (add_existing id r) as [r'|]; [|discriminate].
    injection H as <-. simpl. f_equal. now apply IH.
Qed.

Lemma add_existing_ok (id : Z) (cart cart' : list CartEntry) :
  cart_ok cart -> add_existing id cart = Some cart' -> cart_ok cart'.
Proof.
  intros Hok H. apply add_existing_Some in H as (i & e & Hi & _ & _ & ->).
  apply Forall_insert; [assumption|].
  unfold cart_ok in Hok. rewrite Forall_lookup in Hok.
  specialize (Hok i e Hi). simpl in *. lia.
Qed.

(** ** The actions of update_cart *)

Lemma delete_alter {A : Type} (f : A -> A) (i : nat) (l : list A) :
  delete i (alter f i l) = delete i l.
Proof.
  revert i. induction l as [|x l IH]; intros [|i]; simpl; try reflexivity.
  f_equal. apply IH.
Qed.

Lemma apply_action_decrease (action : option string) (i : nat)
    (cart : list CartEntry) (e : CartEntry) :
  action = Some "decrease" -> cart !! i = Some e ->
  apply_action action i cart =
    if ce_quantity e - 1 <=? 0 then delete i cart
    else alter (add_quantity (-1)) i cart.
Proof.
  intros -> He. unfold apply_action. simpl.
  rewrite list_lookup_alter_eq, He. simpl.
  replace (ce_quantity e + -1) with (ce_quantity e - 1) by lia.
  destruct (ce_quantity e - 1 <=? 0); [apply delete_alter | reflexivity].
Qed.

Lemma apply_action_ok (action : option string) (i : nat) (cart : list CartEntry) :
  cart_ok cart -> cart_ok (apply_action action i cart).
Proof.
  intros Hok. unfold apply_action.
  destruct (form_is action "increase").
  { apply Forall_alter; [assumption|]. intros e _ He. simpl. lia. }
  destruct (form_is action "decrease") eqn:Ed.
  { rewrite list_lookup_alter_eq.
    destruct (cart !! i) as [e|] eqn:Hi; simpl.
    - replace (ce_quantity e + -1) with (ce_quantity e - 1) by lia.
      destruct (Z.leb_spec (ce_quantity e - 1) 0).
      + rewrite delete_alter. now apply Forall_delete.
      + unfold cart_ok. rewrite Forall_lookup. intros j x Hj.
        destruct (decide (i = j)) as [<-|Hne].
        * rewrite list_lookup_alter_eq, Hi in Hj. injection Hj as <-. simpl. lia.
        * rewrite list_lookup_alter_ne in Hj by assumption.
          unfold cart_ok in Hok. rewrite Forall_lookup in Hok. eauto.
    - apply Forall_alter; [assumption|]. intros e He. congruence. }
  destruct (form_is action "remove"); [now apply Forall_delete | assumption].
Qed.

(** C6. Every cart operation keeps every quantity in the session cart at
    1 or more: add_to_cart for every item id and update_cart for every
    index and every form (increase, decrease, remove or anything else);
    and a decrease of an entry whose quantity would drop to zero or below
    deletes that entry. *)
Theorem cart_quantities_stay_positive (w : World) :
  cart_ok (session_cart w) ->
  (forall item_id, cart_ok (session_cart (snd (add_to_cart item_id w)))) /\
  (forall index form, cart_ok (session_cart (snd (update_cart index form w)))) /\
  (forall (i : nat) (form : gmap string string) (uid : Z) (e : CartEntry),
      user_id (session w) = Some uid ->
      form !! "action" = Some "decrease" ->
      session_cart w !! i = Some e ->
      ce_quantity e - 1 <= 0 ->
      session_cart (snd (update_cart (Z.of_nat i) form w)) = delete i (session_cart w)).
Proof.
  intros Hok. split; [|split].
  - intros item_id. rewrite add_to_cart_session_cart.
    destruct (user_id (session w)); [|assumption].
    destruct (query_get mi_id (menu_items (db w)) item_id) as [item|]; [|assumption].
    destruct (add_existing (mi_id item) (session_cart w)) as [c'|] eqn:E.
    + eapply add_existing_ok; eassumption.
    + apply Forall_app. split; [assumption|].
      constructor; [simpl; lia | constructor].
  - intros index form. rewrite update_cart_session_cart.
    destruct (user_id (session w)); [|assumption].
    destruct ((0 <=? index) && (index <? Z.of_nat (length (session_cart w))));
      [now apply apply_action_ok | assumption].
  - intros i form uid e Hu Ha Hi Hq.
    rewrite update_cart_session_cart, Hu.
    pose proof (lookup_lt_Some _ _ _ Hi) as Hlt.
    replace ((0 <=? Z.of_nat i) && (Z.of_nat i <? Z.of_nat (length (session_cart w))))
      with true
      by (symmetry; apply andb_true_iff; split; [apply Z.leb_le | apply Z.ltb_lt]; lia).
    rewrite Nat2Z.id, (apply_action_decrease _ _ _ e Ha Hi).
    destruct (Z.leb_spec (ce_quantity e - 1) 0); [reflexivity | lia].
Qed.

Lemma cart_quantities_stay_positive_witness :
  (forall item_id, cart_ok (session_cart (snd (add_to_cart item_id alice_shopping)))) /\
  (forall index form, cart_ok (session_cart (snd (update_cart index form alice_shopping)))) /\
  (forall (i : nat) (form : gmap string string) (uid : Z) (e : CartEntry),
      user_id (session alice_shopping) = Some uid ->
      form !! "action" = Some "decrease" ->
      session_cart alice_shopping !! i = Some e ->
      ce_quantity e - 1 <= 0 ->
      session_cart (snd (update_cart (Z.of_nat i) form alice_shopping))
        = delete i (session_cart alice_shopping)).
Proof.
  apply (cart_quantities_stay_positive alice_shopping).
  vm_compute. repeat constructor; discriminate.
Defined.

(** ** The cart total *)

(** The loop of [sum] over the first [n] entries computes the sum the
    specification writes. *)
Lemma builtin_sum_take (cart : list CartEntry) (n : nat) :
  (n <= length cart)%nat ->
  builtin_sum line_total (take n cart) = sigma cart n.
Proof.
  induction n as [|n IH]; intros Hn; [reflexivity|].
  destruct (lookup_lt_is_Some_2 cart n ltac:(lia)) as [e He].
  rewrite (take_S_r _ _ _ He). unfold builtin_sum in *.
  rewrite fold_left_app. simpl. rewrite IH by lia.
  rewrite He. reflexivity.
Qed.

Lemma cart_total_sigma (cart : list CartEntry) :
  cart_total cart = sigma cart (length cart).
Proof.
  unfold cart_total. rewrite <- builtin_sum_take by lia.
  now rewrite firstn_all.
Qed.

(** view_cart shows the cart with that sum as its total. *)
Lemma view_cart_total (w : World) (uid : Z) :
  user_id (session w) = Some uid ->
  view_cart w =
    match sigma (session_cart w) (length (session_cart w)) with
    | Ok total => (RenderCart (session_cart w) total, w)
    | Raised e => (Raise e, w)
    end.
Proof.
  intros Hu. unfold view_cart.
  rewrite (login_required_logged_in _ _ _ Hu), cart_total_sigma. reflexivity.
Qed.

(** C5. For every cart and every menu item, add_to_cart increments by
    exactly 1 the quantity of the (first) entry with that item id when there
    is one, leaving every other entry as it was, and otherwise appends one
    new entry of quantity 1; so a cart without two entries of the same id
    stays so; and the total shown for the resulting cart is the sum over
    its entries of price times quantity. *)
Theorem add_to_cart_spec (item_id : Z) (w : World) (uid : Z) (item : MenuItem) :
  user_id (session w) = Some uid ->
  query_get mi_id (menu_items (db w)) item_id = Some item ->
  let cart := session_cart w in
  let w' := snd (add_to_cart item_id w) in
  let cart' := session_cart w' in
  ((exists e, e ∈ cart /\ ce_id e = item_id) ->
     exists (i : nat) (e : CartEntry),
       cart !! i = Some e /\ ce_id e = item_id /\
       (forall (j : nat) (e' : CartEntry),
           (j < i)%nat -> cart !! j = Some e' -> ce_id e' <> item_id) /\
       cart' = <[i := {| ce_id := ce_id e; ce_name := ce_name e; ce_price := ce_price e;
                         ce_quantity := ce_quantity e + 1; ce_image := ce_image e |}]> cart) /\
  ((forall e, e ∈ cart -> ce_id e <> item_id) ->
     cart' = cart ++ [ {| ce_id := item_id; ce_name := mi_name item;
                          ce_price := mi_price item; ce_quantity := 1;
                          ce_image := mi_image item |} ]) /\
  (NoDup (map ce_id cart) -> NoDup (map ce_id cart')) /\
  fst (add_to_cart item_id w) = Redirect "customer_menu" None /\
  view_cart w' =
    match sigma cart' (length cart') with
    | Ok total => (RenderCart cart' total, w')
    | Raised e => (Raise e, w')
    end.
Proof.
  intros Hu Hq. cbv zeta.
  pose proof (query_get_pk _ _ _ _ Hq) as Hid.
  rewrite add_to_cart_session_cart, Hu, Hq, Hid.
  split; [|split; [|split; [|split]]].
  - intros (e & He & Heid).
    destruct (add_existing item_id (session_cart w)) as [c'|] eqn:E.
    + apply add_existing_Some in E as (i & x & Hi & Hx & Hfirst & ->).
      exists i, x. repeat split; auto.
    + exfalso. apply (proj1 (add_existing_None _ _) E e He Heid).
  - intros Hnone. apply add_existing_None in Hnone. rewrite Hnone.
    unfold new_entry. now rewrite Hid.
  - intros Hnd.
    destruct (add_existing item_id (session_cart w)) as [c'|] eqn:E.
    + now rewrite (add_existing_ids _ _ _ E).
    + rewrite map_app. simpl. apply NoDup_app. split; [assumption|].
      split; [|apply NoDup_singleton].
      intros x Hx Hx'. apply list_elem_of_singleton in Hx'. subst x.
      apply list_elem_of_fmap in Hx as (e & He & Hin).
      apply (proj1 (add_existing_None _ _) E e Hin). now rewrite <- He.
  - apply (add_to_cart_response item_id w uid item Hu Hq).
  - pose proof (view_cart_total (snd (add_to_cart item_id w)) uid) as Hv.
    rewrite add_to_cart_session_cart, Hu, Hq, Hid in Hv. apply Hv.
    now rewrite add_to_cart_user_id.
Qed.

Lemma add_to_cart_spec_witness :
  let w := snd (add_to_cart 1 alice_fresh) in
  let item := mkMenuItem 1 "A" None 5 (Some "default.jpg") 1 in
  let cart := session_cart w in
  let w' := snd (add_to_cart 1 w) in
  let cart' := session_cart w' in
  ((exists e, e ∈ cart /\ ce_id e = 1) ->
     exists (i : nat) (e : CartEntry),
       cart !! i = Some e /\ ce_id e = 1 /\
       (forall (j : nat) (e' : CartEntry),
           (j < i)%nat -> cart !! j = Some e' -> ce_id e' <> 1) /\
       cart' = <[i := {| ce_id := ce_id e; ce_name := ce_name e; ce_price := ce_price e;
                         ce_quantity := ce_quantity e + 1; ce_image := ce_image e |}]> cart) /\
  ((forall e, e ∈ cart -> ce_id e <> 1) ->
     cart' = cart ++ [ {| ce_id := 1; ce_name := mi_name item;
                          ce_price := mi_price item; ce_quantity := 1;
                          ce_image := mi_image item |} ]) /\
  (NoDup (map ce_id cart) -> NoDup (map ce_id cart')) /\
  fst (add_to_cart 1 w) = Redirect "customer_menu" None /\
  view_cart w' =
    match sigma cart' (length cart') with
    | Ok total => (RenderCart cart' total, w')
    | Raised e => (Raise e, w')
    end.
Proof.
  apply (add_to_cart_spec 1 (snd (add_to_cart 1 alice_fresh)) 2
           (mkMenuItem 1 "A" None 5 (Some "default.jpg") 1)); reflexivity.
Defined.

(* ===================================================================== *)
(** * Checkout of a non-empty cart *)
(* ===================================================================== *)

(** A key handed out by [next_id] is above every key of the table. *)
Lemma next_id_fresh {R : Type} (pk : R -> Z) (rows : list R) :
  Forall (fun r => pk r < next_id pk rows) rows.
Proof.
  unfold next_id. induction rows as [|r rows IH]; constructor; simpl.
  - lia.
  - eapply Forall_impl; [exact IH|]. intros x Hx. simpl in Hx. lia.
Qed.

(** The rows committed for the cart come after the rows already there,
    one per cart entry and in the order of the cart. *)
Lemma add_order_items_app (order_id : Z) (cart : list CartEntry) (rows0 : list OrderItem) :
  exists rows,
    fold_left (add_order_item order_id) cart rows0 = rows0 ++ rows /\
    Forall2 (snapshot_of order_id) cart rows.
Proof.
  revert rows0. induction cart as [|e cart IH]; intros rows0; simpl.
  - exists []. split; [now rewrite app_nil_r | constructor].
  - destruct (IH (add_order_item order_id rows0 e)) as (rows & Hrows & Hall).
    exists ({| oi_id := next_id oi_id rows0; oi_order_id := order_id;
               oi_menu_item_id := ce_id e; oi_quantity := ce_quantity e;
               oi_price := ce_price e |} :: rows).
    split.
    + rewrite Hrows. unfold add_order_item. now rewrite <- app_assoc.
    + constructor; [|exact Hall]. repeat split.
Qed.

(** One step of the sum of line totals yields a float. *)
Lemma sum_step_float (acc : result num) (e : CartEntry) (t : num) :
  sum_step line_total acc e = Ok t -> exists f, t = Float f.
Proof.
  unfold sum_step, line_total, mul, add. simpl.
  destruct acc as [a|]; simpl; [|discriminate].
  destruct (float_of_int (ce_quantity e)) as [q|]; simpl; [|discriminate].
  destruct a as [z|x]; simpl.
  - destruct (float_of_int z); simpl; [|discriminate]. intros [= <-]. eauto.
  - intros [= <-]. eauto.
Qed.

(** The total of a non-empty cart is a float. *)
Lemma cart_total_float (cart : list CartEntry) (t : num) :
  cart <> [] -> cart_total cart = Ok t -> exists f, t = Float f.
Proof.
  intros Hne. destruct (exists_last Hne) as (c & e & ->).
  unfold cart_total, builtin_sum. rewrite fold_left_app. simpl.
  apply sum_step_float.
Qed.

(** C1. A successful checkout (the one answered with the redirect to the
    order confirmation) happens for a logged-in customer with a non-empty
    cart only; it leaves the session without a cart, appends exactly one
    Order row, with a fresh id, the customer's id, status Pending and the
    total that view_cart showed before the checkout, and appends exactly
    one OrderItem row per cart entry, in the order of the cart, each with
    the new order's id and the item id, quantity and price of its entry;
    the other tables are unchanged. *)
Theorem checkout_places_order (w w' : World) (oid : option Z) :
  checkout w = (Redirect "order_confirmation" oid, w') ->
  exists (uid : Z) (total : float) (order : Order) (rows : list OrderItem),
    user_id (session w) = Some uid /\
    session_cart w <> [] /\
    fst (view_cart w) = RenderCart (session_cart w) (Float total) /\
    cart (session w') = None /\ session_cart w' = [] /\
    orders (db w') = orders (db w) ++ [order] /\
    oid = Some (o_id order) /\
    Forall (fun o => o_id o < o_id order) (orders (db w)) /\
    o_user_id order = uid /\ o_status order = "Pending" /\ o_total order = total /\
    order_items (db w') = order_items (db w) ++ rows /\
    length rows = length (session_cart w) /\
    Forall2 (snapshot_of (o_id order)) (session_cart w) rows /\
    users (db w') = users (db w) /\ categories (db w') = categories (db w) /\
    menu_items (db w') = menu_items (db w).
Proof.
  unfold checkout, view_cart, login_required.
  destruct (user_id (session w)) as [uid|] eqn:Hu; [|discriminate].
  destruct (session_cart w) as [|e c] eqn:Hc; [discriminate|].
  destruct (cart_total (e :: c)) as [t|] eqn:Ht; [|discriminate].
  destruct (cart_total_float (e :: c) t ltac:(discriminate) Ht) as [f ->].
  simpl as_float. cbv iota beta zeta.
  destruct (fits_integer uid); cbn [negb]; [|discriminate].
  destruct (stored_real f); cbn [negb]; [|discriminate].
  destruct (first_refused (e :: c)); [discriminate|].
  intros H. injection H as <- <-.
  destruct (add_order_items_app (next_id o_id (orders (db w))) (e :: c)
              (order_items (db w))) as (rows & Hrows & Hall).
  exists uid, f, {| o_id := next_id o_id (orders (db w)); o_user_id := uid;
                    o_total := f; o_status := "Pending" |}, rows.
  simpl in Hrows |- *. rewrite Hrows.
  repeat split; try discriminate; auto.
  - apply (next_id_fresh o_id).
  - symmetry. apply (Forall2_length _ _ _ Hall).
Qed.

(** A logged-in customer whose non-empty cart has a total does check out,
    provided the two commits take the rows: the total is not NaN, no
    price is, and the user id, the item ids and the quantities are 64-bit
    integers. *)
Lemma checkout_succeeds (w : World) (uid : Z) (total : float) :
  user_id (session w) = Some uid ->
  session_cart w <> [] ->
  cart_total (session_cart w) = Ok (Float total) ->
  fits_integer uid = true ->
  stored_real total = true ->
  first_refused (session_cart w) = None ->
  fst (checkout w) = Redirect "order_confirmation" (Some (next_id o_id (orders (db w)))).
Proof.
  intros Hu Hne Ht Hfit Hreal Hrows. unfold checkout.
  rewrite (login_required_logged_in _ _ _ Hu), Hu.
  destruct (session_cart w); [contradiction|].
  rewrite Ht. simpl as_float. cbv iota beta zeta.
  now rewrite Hfit, Hreal, Hrows.
Qed.

Lemma checkout_places_order_witness :
  exists (uid : Z) (total : float) (order : Order) (rows : list OrderItem),
    user_id (session alice_shopping) = Some uid /\
    session_cart alice_shopping <> [] /\
    fst (view_cart alice_shopping) = RenderCart (session_cart alice_shopping) (Float total) /\
    cart (session (snd (checkout alice_shopping))) = None /\
    session_cart (snd (checkout alice_shopping)) = [] /\
    orders (db (snd (checkout alice_shopping))) = orders (db alice_shopping) ++ [order] /\
    Some 1 = Some (o_id order) /\
    Forall (fun o => o_id o < o_id order) (orders (db alice_shopping)) /\
    o_user_id order = uid /\ o_status order = "Pending" /\ o_total order = total /\
    order_items (db (snd (checkout alice_shopping)))
      = order_items (db alice_shopping) ++ rows /\
    length rows = length (session_cart alice_shopping) /\
    Forall2 (snapshot_of (o_id order)) (session_cart alice_shopping) rows /\
    users (db (snd (checkout alice_shopping))) = users (db alice_shopping) /\
    categories (db (snd (checkout alice_shopping))) = categories (db alice_shopping) /\
    menu_items (db (snd (checkout alice_shopping))) = menu_items (db alice_shopping).
Proof.
  apply (checkout_places_order alice_shopping (snd (checkout alice_shopping)) (Some 1)).
  vm_compute. reflexivity.
Defined.

(** The example of the specification: A at 5.00 twice and B at 3.50 once
    give an order of 13.50, Pending, with two rows at 5.00 and 3.50. *)
Example checkout_example :
  fst (view_cart alice_shopping)
    = RenderCart [ mkCartEntry 1 "A" 5 2 (Some "default.jpg");
                   mkCartEntry 2 "B" 3.5 1 (Some "default.jpg") ] (Float 13.5) /\
  orders (db (snd (checkout alice_shopping))) = [ mkOrder 1 2 13.5 "Pending" ] /\
  order_items (db (snd (checkout alice_shopping)))
    = [ mkOrderItem 1 1 1 2 5; mkOrderItem 2 1 2 1 3.5 ].
Proof. vm_compute. repeat split. Qed.

(* ===================================================================== *)
(** * Further properties: who may do what *)
(* ===================================================================== *)

(** The guards at the two handler types agree. *)
Lemma login_required_view_std (h : handler) (w : World) :
  login_required_view (fun w0 => (Std (fst (h w0)), snd (h w0))) w
  = (Std (fst (login_required h w)), snd (login_required h w)).
Proof. unfold login_required_view, login_required. now destruct (user_id (session w)). Qed.

Lemma admin_required_view_std (h : handler) (w : World) :
  admin_required_view (fun w0 => (Std (fst (h w0)), snd (h w0))) w
  = (Std (fst (admin_required h w)), snd (admin_required h w)).
Proof.
  unfold admin_required_view, admin_required.
  destruct (user_id (session w)) as [uid|]; [|reflexivity].
  destruct (query_get u_id (users (db w)) uid) as [u|]; [|reflexivity].
  now destruct (u_is_admin u).
Qed.

Lemma admin_required_view_admin (f : view) (w : World) (u : User) :
  admin_session w u -> admin_required_view f w = f w.
Proof.
  intros (Hs & Hq & Ha). unfold admin_required_view. now rewrite Hs, Hq, Ha.
Qed.

Lemma admin_required_denies (f : handler) (w : World) :
  no_admin_rights w ->
  admin_required f w =
    (Redirect "index" None,
     flash "You do not have permission to access this page." "danger" w).
Proof.
  unfold no_admin_rights, admin_required.
  destruct (user_id (session w)) as [uid|]; [|reflexivity].
  intros (u & -> & ->). reflexivity.
Qed.

Lemma admin_required_view_denies (f : view) (w : World) :
  no_admin_rights w ->
  admin_required_view f w =
    (Std (Redirect "index" None),
     flash "You do not have permission to access this page." "danger" w).
Proof.
  unfold no_admin_rights, admin_required_view.
  destruct (user_id (session w)) as [uid|]; [|reflexivity].
  intros (u & -> & ->). reflexivity.
Qed.

(** X1. Without a logged-in user no customer route does anything: each of
    them answers with the redirect to the login page and only queues the
    "Please log in" message; the store and the session stay as they were. *)
Theorem customer_routes_need_login
    (newest_first : list Order -> list Order) (w : World) :
  user_id (session w) = None ->
  let w' := flash "Please log in to access this page." "danger" w in
  (forall item_id, add_to_cart item_id w = (Redirect "login" None, w')) /\
  view_cart w = (Redirect "login" None, w') /\
  (forall index form, update_cart index form w = (Redirect "login" None, w')) /\
  checkout w = (Redirect "login" None, w') /\
  (forall order_id, order_confirmation order_id w = (Redirect "login" None, w')) /\
  customer_menu w = (Std (Redirect "login" None), w') /\
  my_orders newest_first w = (Std (Redirect "login" None), w') /\
  db w' = db w /\ session w' = session w.
Proof.
  intros Hu. cbv zeta.
  unfold add_to_cart, view_cart, update_cart, checkout, order_confirmation,
    customer_menu, my_orders, login_required, login_required_view.
  rewrite Hu. split; [|split; [|split; [|split; [|split; [|split; [|split]]]]]];
    try reflexivity; try (intros; reflexivity).
  split; reflexivity.
Qed.

Lemma customer_routes_need_login_witness :
  let w' := flash "Please log in to access this page." "danger" visitor in
  (forall item_id, add_to_cart item_id visitor = (Redirect "login" None, w')) /\
  view_cart visitor = (Redirect "login" None, w') /\
  (forall index form, update_cart index form visitor = (Redirect "login" None, w')) /\
  checkout visitor = (Redirect "login" None, w') /\
  (forall order_id, order_confirmation order_id visitor = (Redirect "login" None, w')) /\
  customer_menu visitor = (Std (Redirect "login" None), w') /\
  my_orders (@rev Order) visitor = (Std (Redirect "login" None), w') /\
  db w' = db visitor /\ session w' = session visitor.
Proof. apply (customer_routes_need_login (@rev Order) visitor). reflexivity. Defined.

(** X2. A visitor or a logged-in user who is not an admin changes nothing
    through the admin routes: every one of them answers with the redirect
    to the home page and only queues the permission message; no menu
    item, category, order status or admin flag is written. *)
Theorem admin_routes_deny_customers
    (newest_first : list Order -> list Order) (w : World) :
  no_admin_rights w ->
  let w' := flash "You do not have permission to access this page." "danger" w in
  (forall form, add_item form w = (Redirect "index" None, w')) /\
  (forall order_id form, update_order_status order_id form w = (Redirect "index" None, w')) /\
  (forall form, add_category form w = (Std (Redirect "index" None), w')) /\
  (forall target, make_admin target w = (Std (Redirect "index" None), w')) /\
  admin_dashboard w = (Std (Redirect "index" None), w') /\
  admin_menu w = (Std (Redirect "index" None), w') /\
  (forall args, admin_orders newest_first args w = (Std (Redirect "index" None), w')) /\
  admin_users w = (Std (Redirect "index" None), w') /\
  db w' = db w /\ session w' = session w.
Proof.
  intros Hn. cbv zeta.
  split; [intros; now apply admin_required_denies|].
  split; [intros; now apply admin_required_denies|].
  split; [intros; now apply admin_required_view_denies|].
  split; [intros; now apply admin_required_view_denies|].
  split; [now apply admin_required_view_denies|].
  split; [now apply admin_required_view_denies|].
  split; [intros; now apply admin_required_view_denies|].
  split; [now apply admin_required_view_denies|].
  split; reflexivity.
Qed.

Lemma admin_routes_deny_customers_witness :
  let w := alice_shopping in
  let w' := flash "You do not have permission to access this page." "danger" w in
  (forall form, add_item form w = (Redirect "index" None, w')) /\
  (forall order_id form, update_order_status order_id form w = (Redirect "index" None, w')) /\
  (forall form, add_category form w = (Std (Redirect "index" None), w')) /\
  (forall target, make_admin target w = (Std (Redirect "index" None), w')) /\
  admin_dashboard w = (Std (Redirect "index" None), w') /\
  admin_menu w = (Std (Redirect "index" None), w') /\
  (forall args, admin_orders (@rev Order) args w = (Std (Redirect "index" None), w')) /\
  admin_users w = (Std (Redirect "index" None), w') /\
  db w' = db w /\ session w' = session w.
Proof.
  apply (admin_routes_deny_customers (@rev Order) alice_shopping).
  vm_compute. eexists. split; reflexivity.
Defined.

(** X3. A session whose user id names no row of the user table (the row
    is gone while the cookie lives on; the id is one SQLite can hold)
    makes every admin route, all eight of them, fail with an
    AttributeError instead of the permission message; nothing is
    written. *)
Theorem admin_routes_stale_session
    (newest_first : list Order -> list Order) (w : World) (uid : Z) :
  user_id (session w) = Some uid ->
  - 2 ^ 63 <= uid < 2 ^ 63 ->
  query_get u_id (users (db w)) uid = None ->
  (forall form, add_item form w = (Raise AttributeError, w)) /\
  (forall order_id form, update_order_status order_id form w = (Raise AttributeError, w)) /\
  (forall form, add_category form w = (Std (Raise AttributeError), w)) /\
  (forall target, make_admin target w = (Std (Raise AttributeError), w)) /\
  admin_dashboard w = (Std (Raise AttributeError), w) /\
  admin_menu w = (Std (Raise AttributeError), w) /\
  (forall args, admin_orders newest_first args w = (Std (Raise AttributeError), w)) /\
  admin_users w = (Std (Raise AttributeError), w).
Proof.
  intros Hu _ Hq.
  unfold add_item, update_order_status, add_category, make_admin, admin_dashboard,
    admin_menu, admin_orders, admin_users, admin_required, admin_required_view.
  rewrite Hu, Hq.
  split; [reflexivity|]. split; [reflexivity|]. split; [reflexivity|].
  split; [reflexivity|]. split; [reflexivity|]. split; [reflexivity|].
  split; reflexivity.
Qed.

Lemma admin_routes_stale_session_witness :
  let w := {| db := sample_db; session := {| user_id := Some 9; cart := None |};
              flashes := [] |} in
  (forall form, add_item form w = (Raise AttributeError, w)) /\
  (forall order_id form, update_order_status order_id form w = (Raise AttributeError, w)) /\
  (forall form, add_category form w = (Std (Raise AttributeError), w)) /\
  (forall target, make_admin target w = (Std (Raise AttributeError), w)) /\
  admin_dashboard w = (Std (Raise AttributeError), w) /\
  admin_menu w = (Std (Raise AttributeError), w) /\
  (forall args, admin_orders (@rev Order) args w = (Std (Raise AttributeError), w)) /\
  admin_users w = (Std (Raise AttributeError), w).
Proof.
  apply (admin_routes_stale_session (@rev Order)
           {| db := sample_db; session := {| user_id := Some 9; cart := None |};
              flashes := [] |} 9); [reflexivity | lia | reflexivity].
Defined.

(* ===================================================================== *)
(** * Further properties of the cart *)
(* ===================================================================== *)

Lemma set_cart_same (w : World) (c : list CartEntry) :
  cart (session w) = Some c -> set_cart (Some c) w = w.
Proof. destruct w as [d [u c'] f]. simpl. now intros ->. Qed.

(** X4. add_to_cart for an id that is not on the menu answers 404, or,
    for an id that is no 64-bit integer, fails with the OverflowError of
    the lookup; it queues nothing and leaves the store and an existing
    cart untouched, but a session without a cart has received an empty
    one by then. *)
Theorem add_to_cart_unknown_item (item_id : Z) (w : World) (uid : Z) :
  user_id (session w) = Some uid ->
  query_get mi_id (menu_items (db w)) item_id = None ->
  (- 2 ^ 63 <= item_id < 2 ^ 63 ->
     add_to_cart item_id w = (NotFound, set_cart (Some (session_cart w)) w)) /\
  (~ (- 2 ^ 63 <= item_id < 2 ^ 63) ->
     add_to_cart item_id w = (Raise OverflowError, set_cart (Some (session_cart w)) w)) /\
  (forall c, cart (session w) = Some c -> snd (add_to_cart item_id w) = w) /\
  (cart (session w) = None ->
   cart (session (snd (add_to_cart item_id w))) = Some []) /\
  db (snd (add_to_cart item_id w)) = db w /\
  flashes (snd (add_to_cart item_id w)) = flashes w.
Proof.
  intros Hu Hq.
  assert (H : add_to_cart item_id w
              = (no_row item_id, set_cart (Some (session_cart w)) w)).
  { unfold add_to_cart. rewrite (login_required_logged_in _ _ _ Hu). cbv zeta.
    unfold session_cart.
    destruct (cart (session w)) as [c|] eqn:Ec; simpl; rewrite Hq;
      [now rewrite (set_cart_same _ _ Ec) | reflexivity]. }
  rewrite H.
  split; [intros Hr; now rewrite (no_row_in_range _ Hr)|].
  split; [intros Hr; now rewrite (no_row_out_of_range _ Hr)|].
  split; [|split; [|split; reflexivity]].
  - intros c Ec. unfold session_cart. rewrite Ec. simpl. apply (set_cart_same _ _ Ec).
  - intros Ec. unfold session_cart. now rewrite Ec.
Qed.

Lemma add_to_cart_unknown_item_witness :
  (- 2 ^ 63 <= 2 ^ 63 < 2 ^ 63 ->
     add_to_cart (2 ^ 63) alice_fresh
     = (NotFound, set_cart (Some (session_cart alice_fresh)) alice_fresh)) /\
  (~ (- 2 ^ 63 <= 2 ^ 63 < 2 ^ 63) ->
     add_to_cart (2 ^ 63) alice_fresh
     = (Raise OverflowError, set_cart (Some (session_cart alice_fresh)) alice_fresh)) /\
  (forall c, cart (session alice_fresh) = Some c ->
     snd (add_to_cart (2 ^ 63) alice_fresh) = alice_fresh) /\
  (cart (session alice_fresh) = None ->
   cart (session (snd (add_to_cart (2 ^ 63) alice_fresh))) = Some []) /\
  db (snd (add_to_cart (2 ^ 63) alice_fresh)) = db alice_fresh /\
  flashes (snd (add_to_cart (2 ^ 63) alice_fresh)) = flashes alice_fresh.
Proof. apply (add_to_cart_unknown_item (2 ^ 63) alice_fresh 2); reflexivity. Defined.

(** The two answers on the sample menu: 404 for the id 7, the
    OverflowError for the id 2^63. *)
Example add_to_cart_unknown_ids :
  fst (add_to_cart 7 alice_fresh) = NotFound /\
  fst (add_to_cart (2 ^ 63) alice_fresh) = Raise OverflowError.
Proof. split; reflexivity. Qed.

Lemma in_range_guard (index : Z) (n : nat) :
  0 <= index < Z.of_nat n -> (0 <=? index) && (index <? Z.of_nat n) = true.
Proof. intros H. apply andb_true_iff. split; [apply Z.leb_le | apply Z.ltb_lt]; lia. Qed.

Lemma update_cart_in_range_eq (index : Z) (form : gmap string string) (w : World) (uid : Z) :
  user_id (session w) = Some uid ->
  0 <= index < Z.of_nat (length (session_cart w)) ->
  update_cart index form w =
    (Redirect "view_cart" None,
     flash "Cart updated" "success"
       (set_cart (Some (apply_action (form !! "action") (Z.to_nat index) (session_cart w))) w)).
Proof.
  intros Hu Hr. unfold update_cart.
  now rewrite (login_required_logged_in _ _ _ Hu), (in_range_guard _ _ Hr).
Qed.

Lemma alter_as_insert {A : Type} (f : A -> A) (i : nat) (l : list A) (x : A) :
  l !! i = Some x -> alter f i l = <[i := f x]> l.
Proof.
  intros Hi. apply list_eq. intros j. destruct (decide (i = j)) as [<-|Hne].
  - rewrite list_lookup_alter_eq, Hi, list_lookup_insert_eq;
      [reflexivity | now apply lookup_lt_Some in Hi].
  - now rewrite list_lookup_alter_ne, list_lookup_insert_ne.
Qed.

Lemma apply_action_increase (action : option string) (i : nat) (cart : list CartEntry) :
  action = Some "increase" -> apply_action action i cart = alter (add_quantity 1) i cart.
Proof. now intros ->. Qed.

Lemma apply_action_remove (action : option string) (i : nat) (cart : list CartEntry) :
  action = Some "remove" -> apply_action action i cart = delete i cart.
Proof. now intros ->. Qed.

(** X5. update_cart with an index inside the cart always answers with the
    redirect to the cart and the message "Cart updated", and touches only
    the addressed entry: increase adds 1 to its quantity, a decrease of a
    quantity above 1 takes 1 off, remove deletes it, and any other action
    (or none) leaves the cart exactly as it was. *)
Theorem update_cart_in_range
    (i : nat) (form : gmap string string) (w : World) (uid : Z) (e : CartEntry) :
  user_id (session w) = Some uid ->
  session_cart w !! i = Some e ->
  let cart := session_cart w in
  let w' := snd (update_cart (Z.of_nat i) form w) in
  let cart' := session_cart w' in
  fst (update_cart (Z.of_nat i) form w) = Redirect "view_cart" None /\
  flashes w' = flashes w ++ [("Cart updated", "success")] /\
  db w' = db w /\
  (form !! "action" = Some "increase" ->
     cart' = <[i := {| ce_id := ce_id e; ce_name := ce_name e; ce_price := ce_price e;
                       ce_quantity := ce_quantity e + 1; ce_image := ce_image e |}]> cart) /\
  (form !! "action" = Some "decrease" -> 1 < ce_quantity e ->
     cart' = <[i := {| ce_id := ce_id e; ce_name := ce_name e; ce_price := ce_price e;
                       ce_quantity := ce_quantity e - 1; ce_image := ce_image e |}]> cart) /\
  (form !! "action" = Some "remove" -> cart' = delete i cart) /\
  (form !! "action" <> Some "increase" -> form !! "action" <> Some "decrease" ->
   form !! "action" <> Some "remove" -> cart' = cart).
Proof.
  intros Hu Hi. cbv zeta.
  pose proof (lookup_lt_Some _ _ _ Hi) as Hlt.
  assert (Hr : 0 <= Z.of_nat i < Z.of_nat (length (session_cart w))) by lia.
  rewrite update_cart_session_cart, Hu, (in_range_guard _ _ Hr), Nat2Z.id.
  rewrite (update_cart_in_range_eq _ form _ _ Hu Hr).
  split; [reflexivity|]. split; [reflexivity|]. split; [reflexivity|].
  split; [|split; [|split]].
  - intros Ha. rewrite (apply_action_increase _ _ _ Ha).
    apply (alter_as_insert (add_quantity 1) _ _ _ Hi).
  - intros Ha Hq. rewrite (apply_action_decrease _ _ _ e Ha Hi).
    destruct (Z.leb_spec (ce_quantity e - 1) 0); [lia|].
    rewrite (alter_as_insert _ _ _ _ Hi). unfold add_quantity.
    now replace (ce_quantity e + -1) with (ce_quantity e - 1) by lia.
  - intros Ha. now rewrite (apply_action_remove _ _ _ Ha).
  - intros H1 H2 H3. unfold apply_action.
    destruct (form_is (form !! "action") "increase") eqn:E1;
      [apply form_is_true in E1; contradiction|].
    destruct (form_is (form !! "action") "decrease") eqn:E2;
      [apply form_is_true in E2; contradiction|].
    destruct (form_is (form !! "action") "remove") eqn:E3;
      [apply form_is_true in E3; contradiction|].
    reflexivity.
Qed.

Lemma update_cart_in_range_witness :
  let w := alice_shopping in
  let e := mkCartEntry 1 "A" 5 2 (Some "default.jpg") in
  let form : gmap string string := {["action" := "decrease"]} in
  let cart := session_cart w in
  let w' := snd (update_cart 0 form w) in
  let cart' := session_cart w' in
  fst (update_cart 0 form w) = Redirect "view_cart" None /\
  flashes w' = flashes w ++ [("Cart updated", "success")] /\
  db w' = db w /\
  (form !! "action" = Some "increase" ->
     cart' = <[0%nat := {| ce_id := ce_id e; ce_name := ce_name e; ce_price := ce_price e;
                           ce_quantity := ce_quantity e + 1; ce_image := ce_image e |}]> cart) /\
  (form !! "action" = Some "decrease" -> 1 < ce_quantity e ->
     cart' = <[0%nat := {| ce_id := ce_id e; ce_name := ce_name e; ce_price := ce_price e;
                           ce_quantity := ce_quantity e - 1; ce_image := ce_image e |}]> cart) /\
  (form !! "action" = Some "remove" -> cart' = delete 0%nat cart) /\
  (form !! "action" <> Some "increase" -> form !! "action" <> Some "decrease" ->
   form !! "action" <> Some "remove" -> cart' = cart).
Proof.
  apply (update_cart_in_range 0 {["action" := "decrease"]} alice_shopping 2
           (mkCartEntry 1 "A" 5 2 (Some "default.jpg"))); reflexivity.
Defined.

Lemma alter_add_quantity_ids (d : Z) (i : nat) (l : list CartEntry) :
  map ce_id (alter (add_quantity d) i l) = map ce_id l.
Proof.
  revert i. induction l as [|x l IH]; intros [|i]; simpl; try reflexivity.
  f_equal. apply IH.
Qed.

Lemma delete_ids_sublist (i : nat) (l : list CartEntry) :
  map ce_id (delete i l) `sublist_of` map ce_id l.
Proof. apply (fmap_sublist ce_id). apply sublist_delete. Qed.

Lemma apply_action_ids (action : option string) (i : nat) (l : list CartEntry) :
  map ce_id (apply_action action i l) `sublist_of` map ce_id l.
Proof.
  unfold apply_action.
  destruct (form_is action "increase"); [now rewrite alter_add_quantity_ids|].
  destruct (form_is action "decrease").
  { destruct (alter (add_quantity (-1)) i l !! i) as [e|].
    - destruct (ce_quantity e <=? 0).
      + rewrite delete_alter. apply delete_ids_sublist.
      + now rewrite alter_add_quantity_ids.
    - now rewrite alter_add_quantity_ids. }
  destruct (form_is action "remove"); [apply delete_ids_sublist | reflexivity].
Qed.

(** X6. update_cart never adds or reorders entries: for every index and
    form, the item ids of the cart afterwards are the ids before with
    possibly one left out; so a cart without repeated ids stays so and
    the cart never grows. *)
Theorem update_cart_never_adds (index : Z) (form : gmap string string) (w : World) :
  let cart := session_cart w in
  let cart' := session_cart (snd (update_cart index form w)) in
  map ce_id cart' `sublist_of` map ce_id cart /\
  (length cart' <= length cart)%nat /\
  (NoDup (map ce_id cart) -> NoDup (map ce_id cart')).
Proof.
  cbv zeta.
  assert (H : map ce_id (session_cart (snd (update_cart index form w)))
              `sublist_of` map ce_id (session_cart w)).
  { rewrite update_cart_session_cart.
    destruct (user_id (session w)); [|reflexivity].
    destruct ((0 <=? index) && (index <? Z.of_nat (length (session_cart w))));
      [apply apply_action_ids | reflexivity]. }
  split; [exact H|]. split.
  - apply sublist_length in H. now rewrite !length_map in H.
  - intros Hnd. eapply sublist_NoDup; eassumption.
Qed.

Lemma delete_last {A : Type} (l : list A) (x : A) : delete (length l) (l ++ [x]) = l.
Proof. induction l as [|y l IH]; simpl; [reflexivity | now f_equal]. Qed.

(** X7. Adding an item that was not in the cart and then removing, or
    decreasing, the last entry gives back the cart as it was. *)
Theorem add_then_undo_restores
    (item_id : Z) (form : gmap string string) (w : World) (uid : Z) (item : MenuItem) :
  user_id (session w) = Some uid ->
  query_get mi_id (menu_items (db w)) item_id = Some item ->
  (forall e, e ∈ session_cart w -> ce_id e <> item_id) ->
  form !! "action" = Some "remove" \/ form !! "action" = Some "decrease" ->
  session_cart (snd (update_cart (Z.of_nat (length (session_cart w))) form
                       (snd (add_to_cart item_id w))))
  = session_cart w.
Proof.
  intros Hu Hq Hnew Ha.
  pose proof (query_get_pk _ _ _ _ Hq) as Hid.
  assert (Hc : session_cart (snd (add_to_cart item_id w))
               = session_cart w ++ [new_entry item]).
  { rewrite add_to_cart_session_cart, Hu, Hq, Hid.
    apply add_existing_None in Hnew. now rewrite Hnew. }
  rewrite update_cart_session_cart, add_to_cart_user_id, Hu, Hc.
  rewrite in_range_guard by (rewrite length_app; simpl; lia).
  rewrite Nat2Z.id.
  destruct Ha as [Ha|Ha].
  - rewrite (apply_action_remove _ _ _ Ha). apply delete_last.
  - rewrite (apply_action_decrease _ _ _ (new_entry item) Ha).
    + simpl. apply delete_last.
    + rewrite lookup_app_r by lia. now rewrite Nat.sub_diag.
Qed.

Lemma add_then_undo_restores_witness :
  session_cart (snd (update_cart (Z.of_nat (length (session_cart alice_fresh)))
                       {["action" := "decrease"]} (snd (add_to_cart 2 alice_fresh))))
  = session_cart alice_fresh.
Proof.
  apply (add_then_undo_restores 2 {["action" := "decrease"]} alice_fresh 2
           (mkMenuItem 2 "B" None 3.5 (Some "default.jpg") 1)).
  - reflexivity.
  - reflexivity.
  - intros e He. vm_compute in He. inversion He.
  - right. reflexivity.
Defined.

Lemma cart_count_app (l k : list CartEntry) :
  cart_count (l ++ k) = cart_count l + cart_count k.
Proof.
  unfold cart_count. induction l as [|x l IH]; simpl; [reflexivity|].
  rewrite IH. lia.
Qed.

Lemma add_existing_count (id : Z) (cart cart' : list CartEntry) :
  add_existing id cart = Some cart' -> cart_count cart' = cart_count cart + 1.
Proof.
  revert cart'. induction cart as [|x r IH]; intros cart' H; simpl in H; [discriminate|].
  destruct (ce_id x =? id).
  - injection H as <-. unfold cart_count. simpl. lia.
  - destruct (add_existing id r) as [r'|]; [|discriminate].
    injection H as <-. specialize (IH r' eq_refl).
    unfold cart_count in *. simpl. lia.
Qed.

(** X8. Every add_to_cart of an item on the menu puts exactly one more
    item into the cart: the sum of the quantities grows by 1, whether the
    item was in the cart already or not, and the number of entries grows
    by at most one. *)
Theorem add_to_cart_counts_one
    (item_id : Z) (w : World) (uid : Z) (item : MenuItem) :
  user_id (session w) = Some uid ->
  query_get mi_id (menu_items (db w)) item_id = Some item ->
  let cart := session_cart w in
  let cart' := session_cart (snd (add_to_cart item_id w)) in
  cart_count cart' = cart_count cart + 1 /\
  (length cart <= length cart' <= length cart + 1)%nat.
Proof.
  intros Hu Hq. cbv zeta. rewrite add_to_cart_session_cart, Hu, Hq.
  destruct (add_existing (mi_id item) (session_cart w)) as [c'|] eqn:E.
  - split; [now apply add_existing_count in E|].
    apply add_existing_ids in E. apply (f_equal (@length Z)) in E.
    rewrite !length_map in E. lia.
  - rewrite cart_count_app, length_app. unfold cart_count. simpl. lia.
Qed.

Lemma add_to_cart_counts_one_witness :
  let cart := session_cart alice_shopping in
  let cart' := session_cart (snd (add_to_cart 1 alice_shopping)) in
  cart_count cart' = cart_count cart + 1 /\
  (length cart <= length cart' <= length cart + 1)%nat.
Proof.
  apply (add_to_cart_counts_one 1 alice_shopping 2
           (mkMenuItem 1 "A" None 5 (Some "default.jpg") 1)); reflexivity.
Defined.

(* ===================================================================== *)
(** * Further properties of checkout *)
(* ===================================================================== *)

(** The world after a successful checkout, spelled out. *)
Lemma checkout_success_inv (w w' : World) (oid : option Z) :
  checkout w = (Redirect "order_confirmation" oid, w') ->
  exists (uid : Z) (total : float),
    user_id (session w) = Some uid /\
    session_cart w <> [] /\
    cart_total (session_cart w) = Ok (Float total) /\
    oid = Some (next_id o_id (orders (db w))) /\
    w' = flash "Order placed successfully!" "success"
           (set_cart None
              (set_db {| users := users (db w); categories := categories (db w);
                         menu_items := menu_items (db w);
                         orders := orders (db w)
                                   ++ [ {| o_id := next_id o_id (orders (db w));
                                           o_user_id := uid; o_total := total;
                                           o_status := "Pending" |} ];
                         order_items :=
                           fold_left (add_order_item (next_id o_id (orders (db w))))
                                     (session_cart w) (order_items (db w)) |} w)).
Proof.
  unfold checkout, login_required.
  destruct (user_id (session w)) as [uid|] eqn:Hu; [|discriminate].
  destruct (session_cart w) as [|e c] eqn:Hc; [discriminate|].
  destruct (cart_total (e :: c)) as [t|] eqn:Ht; [|discriminate].
  destruct (cart_total_float (e :: c) t ltac:(discriminate) Ht) as [f ->].
  simpl as_float. cbv iota beta zeta.
  destruct (fits_integer uid); cbn [negb]; [|discriminate].
  destruct (stored_real f); cbn [negb]; [|discriminate].
  destruct (first_refused (e :: c)); [discriminate|].
  intros H. injection H as <- <-.
  exists uid, f. repeat split; auto.
Qed.

(** Any other outcome of checkout leaves the store as it was, or, when
    the second commit fails, with the new Order and no row for it. *)
Lemma checkout_db_cases (w : World) :
  db (snd (checkout w)) = db w \/
  (exists order,
     o_id order = next_id o_id (orders (db w)) /\
     db (snd (checkout w)) =
       {| users := users (db w); categories := categories (db w);
          menu_items := menu_items (db w); orders := orders (db w) ++ [order];
          order_items := order_items (db w) |}) \/
  exists oid, checkout w = (Redirect "order_confirmation" oid, snd (checkout w)).
Proof.
  unfold checkout, login_required.
  destruct (user_id (session w)) as [uid|]; [|now left].
  destruct (session_cart w) as [|e c]; [now left|].
  destruct (cart_total (e :: c)) as [t|]; [|now left].
  destruct (as_float t); [|now left].
  destruct (fits_integer uid); cbn [negb]; [|now left].
  destruct (stored_real a); cbn [negb]; [|now left].
  destruct (first_refused (e :: c)).
  - right. left. eexists. split; [|reflexivity]. reflexivity.
  - right. right. eexists. reflexivity.
Qed.

Lemma query_get_app_new {R : Type} (pk : R -> Z) (rows : list R) (r : R) :
  Forall (fun x => pk x < pk r) rows -> query_get pk (rows ++ [r]) (pk r) = Some r.
Proof.
  unfold query_get. induction 1 as [|x rows Hx _ IH]; simpl.
  - now rewrite Z.eqb_refl.
  - destruct (Z.eqb_spec (pk x) (pk r)); [lia | exact IH].
Qed.

(** X9. The redirect of a successful checkout leads to the order just
    placed: followed by the same session, order_confirmation renders the
    last row of the order table, which is Pending and carries the
    customer's id. *)
Theorem checkout_then_confirmation (w w' : World) (oid : Z) :
  checkout w = (Redirect "order_confirmation" (Some oid), w') ->
  exists order,
    order_confirmation oid w' = (RenderOrderConfirmation order, w') /\
    last (orders (db w')) = Some order /\
    o_id order = oid /\ o_status order = "Pending" /\
    user_id (session w) = Some (o_user_id order).
Proof.
  intros H. apply checkout_success_inv in H as (uid & total & Hu & _ & _ & Hoid & ->).
  injection Hoid as ->.
  exists {| o_id := next_id o_id (orders (db w)); o_user_id := uid;
            o_total := total; o_status := "Pending" |}.
  split; [|split; [|split; [|split]]].
  - apply order_confirmation_owner; simpl; [exact Hu|].
    apply (query_get_app_new o_id (orders (db w))
             {| o_id := next_id o_id (orders (db w)); o_user_id := uid;
                o_total := total; o_status := "Pending" |}).
    apply (next_id_fresh o_id).
  - simpl. apply last_snoc.
  - reflexivity.
  - reflexivity.
  - exact Hu.
Qed.

Lemma checkout_then_confirmation_witness :
  exists order,
    order_confirmation 1 (snd (checkout alice_shopping))
      = (RenderOrderConfirmation order, snd (checkout alice_shopping)) /\
    last (orders (db (snd (checkout alice_shopping)))) = Some order /\
    o_id order = 1 /\ o_status order = "Pending" /\
    user_id (session alice_shopping) = Some (o_user_id order).
Proof.
  apply (checkout_then_confirmation alice_shopping (snd (checkout alice_shopping)) 1).
  reflexivity.
Defined.

(** X10. A checkout cannot be repeated: after a successful checkout the
    cart is gone, so the next checkout of the session is answered with
    "Your cart is empty" and places no second order. *)
Theorem checkout_twice (w w' : World) (oid : option Z) :
  checkout w = (Redirect "order_confirmation" oid, w') ->
  checkout w' = (Redirect "customer_menu" None, flash "Your cart is empty" "warning" w') /\
  orders (db (snd (checkout w'))) = orders (db w') /\
  order_items (db (snd (checkout w'))) = order_items (db w').
Proof.
  intros H. apply checkout_success_inv in H as (uid & total & Hu & _ & _ & _ & ->).
  unfold checkout at 1 2 3. unfold login_required. simpl. rewrite Hu. simpl.
  repeat split.
Qed.

Lemma checkout_twice_witness :
  let w' := snd (checkout alice_shopping) in
  checkout w' = (Redirect "customer_menu" None, flash "Your cart is empty" "warning" w') /\
  orders (db (snd (checkout w'))) = orders (db w') /\
  order_items (db (snd (checkout w'))) = order_items (db w').
Proof.
  apply (checkout_twice alice_shopping (snd (checkout alice_shopping)) (Some 1)).
  reflexivity.
Defined.

Lemma rows_total_snapshot (order_id : Z) (cart : list CartEntry) (rows : list OrderItem) :
  Forall2 (snapshot_of order_id) cart rows -> rows_total rows = cart_total cart.
Proof.
  intros H. unfold rows_total, cart_total, builtin_sum.
  generalize (Ok (Int 0) : result num).
  induction H as [|e x cart rows (_ & _ & Hq & Hp) _ IH]; intros acc; simpl;
    [reflexivity|].
  rewrite IH. f_equal. unfold sum_step, line_total. now rewrite Hq, Hp.
Qed.

(** X11. The rows of a placed order add up to its total: the sum of price
    times quantity over the OrderItem rows stored by a successful
    checkout, computed the way the cart total is, is the total stored in
    the Order row. *)
Theorem checkout_rows_sum_to_total (w w' : World) (oid : option Z) :
  checkout w = (Redirect "order_confirmation" oid, w') ->
  exists (order : Order) (rows : list OrderItem),
    orders (db w') = orders (db w) ++ [order] /\
    order_items (db w') = order_items (db w) ++ rows /\
    Forall (fun r => oi_order_id r = o_id order) rows /\
    rows_total rows = Ok (Float (o_total order)).
Proof.
  intros H. apply checkout_success_inv in H as (uid & total & Hu & _ & Ht & _ & ->).
  destruct (add_order_items_app (next_id o_id (orders (db w))) (session_cart w)
              (order_items (db w))) as (rows & Hrows & Hall).
  eexists. exists rows. simpl. split; [reflexivity|]. split; [exact Hrows|]. split.
  - clear -Hall. induction Hall as [|e r ? ? (Ho & _) _ IH]; constructor; auto.
  - simpl. now rewrite (rows_total_snapshot _ _ _ Hall).
Qed.

Lemma checkout_rows_sum_to_total_witness :
  exists (order : Order) (rows : list OrderItem),
    orders (db (snd (checkout alice_shopping))) = orders (db alice_shopping) ++ [order] /\
    order_items (db (snd (checkout alice_shopping)))
      = order_items (db alice_shopping) ++ rows /\
    Forall (fun r => oi_order_id r = o_id order) rows /\
    rows_total rows = Ok (Float (o_total order)).
Proof.
  apply (checkout_rows_sum_to_total alice_shopping (snd (checkout alice_shopping)) (Some 1)).
  reflexivity.
Defined.

(* ===================================================================== *)
(** * Further properties of the admin routes *)
(* ===================================================================== *)

Lemma find_none_iff {A : Type} (p : A -> bool) (l : list A) :
  find p l = None <-> (forall x, x ∈ l -> p x = false).
Proof.
  induction l as [|y l IH]; simpl.
  - split; [intros _ x Hx; inversion Hx | reflexivity].
  - destruct (p y) eqn:E.
    + split; [discriminate|]. intros H. specialize (H y (list_elem_of_here _ _)). congruence.
    + rewrite IH. split.
      * intros H x Hx. apply elem_of_cons in Hx as [->|Hx]; auto.
      * intros H x Hx. apply H. now right.
Qed.

Lemma find_none_existsb {A : Type} (p : A -> bool) (l : list A) :
  find p l = None -> existsb p l = false.
Proof.
  induction l as [|y l IH]; simpl; [reflexivity|].
  destruct (p y); [discriminate | exact IH].
Qed.

Lemma find_is_some {A : Type} (p : A -> bool) (l : list A) (x : A) :
  x ∈ l -> p x = true -> exists y, find p l = Some y.
Proof.
  intros Hx Hp. destruct (find p l) as [y|] eqn:E; [eauto|].
  rewrite find_none_iff in E. specialize (E x Hx). congruence.
Qed.

(** X12. add_item with a non-empty name, a price that parses to a float
    that is neither zero nor NaN and a category that parses to a non-zero
    64-bit integer stores exactly one new menu item, with a fresh id, the
    given description, the image default.jpg and the parsed price and
    category; the item is then found under its id, so it can be added to
    a cart. *)
Theorem add_item_stores
    (form : gmap string string) (w : World) (u : User)
    (name : string) (price : float) (cid : Z) :
  admin_session w u ->
  form !! "name" = Some name -> name <> "" ->
  builtin_float (form !! "price") = Ok price ->
  PrimFloat.eqb price 0 = false -> PrimFloat.eqb price price = true ->
  builtin_int (form !! "category_id") = Ok cid ->
  cid <> 0 -> - 2 ^ 63 <= cid < 2 ^ 63 ->
  let item := {| mi_id := next_id mi_id (menu_items (db w)); mi_name := name;
                 mi_description := form !! "description"; mi_price := price;
                 mi_image := Some "default.jpg"; mi_category_id := cid |} in
  let w' := snd (add_item form w) in
  fst (add_item form w) = Redirect "admin_menu" None /\
  flashes w' = flashes w ++ [("Menu item added successfully", "success")] /\
  menu_items (db w') = menu_items (db w) ++ [item] /\
  query_get mi_id (menu_items (db w')) (mi_id item) = Some item /\
  Forall (fun i => mi_id i <> mi_id item) (menu_items (db w)) /\
  users (db w') = users (db w) /\ categories (db w') = categories (db w) /\
  orders (db w') = orders (db w) /\ order_items (db w') = order_items (db w) /\
  session w' = session w.
Proof.
  intros Hadm Hn Hne Hp Hpz Hreal Hc Hcz Hfit. cbv zeta. unfold add_item.
  rewrite (admin_required_admin _ _ _ Hadm), Hp, Hc, Hn.
  assert (Hg : negb (truthy_str (Some name)) || negb (truthy_float price)
               || negb (truthy_int cid) = false).
  { unfold truthy_str, truthy_float, truthy_int.
    change PrimFloat.zero with 0%float.
    apply String.eqb_neq in Hne. apply Z.eqb_neq in Hcz.
    now rewrite Hne, Hpz, Hcz. }
  rewrite Hg. unfold stored_real.
  rewrite (proj2 (fits_integer_true cid) Hfit), Hreal. simpl.
  repeat split.
  - apply (query_get_app_new mi_id (menu_items (db w))
             {| mi_id := next_id mi_id (menu_items (db w)); mi_name := name;
                mi_description := form !! "description"; mi_price := price;
                mi_image := Some "default.jpg"; mi_category_id := cid |}).
    apply (next_id_fresh mi_id).
  - eapply Forall_impl; [apply (next_id_fresh mi_id)|]. intros x Hx. simpl in Hx. lia.
Qed.

Lemma add_item_stores_witness :
  let form := soup_form "4.5" in
  let w := admin_after in
  let item := {| mi_id := next_id mi_id (menu_items (db w)); mi_name := "Soup";
                 mi_description := form !! "description"; mi_price := 4.5;
                 mi_image := Some "default.jpg"; mi_category_id := 1 |} in
  let w' := snd (add_item form w) in
  fst (add_item form w) = Redirect "admin_menu" None /\
  flashes w' = flashes w ++ [("Menu item added successfully", "success")] /\
  menu_items (db w') = menu_items (db w) ++ [item] /\
  query_get mi_id (menu_items (db w')) (mi_id item) = Some item /\
  Forall (fun i => mi_id i <> mi_id item) (menu_items (db w)) /\
  users (db w') = users (db w) /\ categories (db w') = categories (db w) /\
  orders (db w') = orders (db w) /\ order_items (db w') = order_items (db w) /\
  session w' = session w.
Proof.
  apply (add_item_stores (soup_form "4.5") admin_after sample_admin "Soup" 4.5 1);
    try reflexivity; try discriminate; try lia.
  vm_compute. repeat split.
Defined.

(** What the commit of add_item refuses, on the sample store: a price of
    NaN, a category id of 2^63; and what the conversions refuse: input
    padded with a byte that is no white space to float() and int(). *)
Example add_item_refused_inputs :
  fst (add_item (soup_form "nan") admin_after) = Raise SqlIntegrityError /\
  fst (add_item (<["name" := "Soup"]>
                   (<["price" := "4.5"]> {["category_id" := "9223372036854775808"]}))
                admin_after) = Raise OverflowError /\
  fst (add_item (soup_form (String (ascii_of_nat 28) "4.5")) admin_after)
    = Raise ValueError /\
  menu_items (db (snd (add_item (soup_form "nan") admin_after)))
    = menu_items (db admin_after).
Proof. vm_compute. repeat split. Qed.

(** X13. add_category, sent by an admin: a missing or empty name is
    answered with "Category name is required", a name already in the
    table with "Category already exists", both without a write; any other
    name is appended under a fresh id. The unique constraint on the name
    is never hit and the names in the table stay distinct. *)
Theorem add_category_spec (form : gmap string string) (w : World) (u : User) :
  admin_session w u ->
  let cs := categories (db w) in
  let w' := snd (add_category form w) in
  (form !! "name" = None \/ form !! "name" = Some "" ->
     add_category form w =
       (Std (Redirect "admin_menu" None), flash "Category name is required" "danger" w)) /\
  (forall name c, form !! "name" = Some name -> name <> "" ->
     c ∈ cs -> c_name c = name ->
     add_category form w =
       (Std (Redirect "admin_menu" None), flash "Category already exists" "danger" w)) /\
  (forall name, form !! "name" = Some name -> name <> "" ->
     (forall c, c ∈ cs -> c_name c <> name) ->
     fst (add_category form w) = Std (Redirect "admin_menu" None) /\
     flashes w' = flashes w ++ [("Category added successfully", "success")] /\
     categories (db w') = cs ++ [ {| c_id := next_id c_id cs; c_name := name |} ]) /\
  fst (add_category form w) <> IntegrityError /\
  (categories_unique cs -> categories_unique (categories (db w'))) /\
  users (db w') = users (db w) /\ menu_items (db w') = menu_items (db w) /\
  orders (db w') = orders (db w) /\ order_items (db w') = order_items (db w).
Proof.
  intros Hadm. cbv zeta. unfold add_category.
  rewrite (admin_required_view_admin _ _ _ Hadm).
  destruct (form !! "name") as [name|] eqn:Hn; simpl.
  2:{ repeat split; try discriminate; auto; intros; try congruence;
      match goal with H : categories_unique _ |- _ => destruct H; assumption end. }
  destruct (String.eqb_spec name "") as [->|Hne]; simpl.
  { repeat split; try discriminate; auto; intros; try congruence;
      match goal with H : categories_unique _ |- _ => destruct H; assumption end. }
  destruct (find (name_is name) (categories (db w))) as [c0|] eqn:Hf.
  - simpl. split; [intros [H|H]; congruence|].
    split; [intros n c [= <-] _ _ _; reflexivity|].
    split.
    { intros n [= <-] _ Hfree. apply find_some in Hf as [Hin Hc0].
      apply String.eqb_eq in Hc0. exfalso.
      apply (Hfree c0); [now apply list_elem_of_In | assumption]. }
    repeat split; try discriminate; auto; intros;
      match goal with H : categories_unique _ |- _ => destruct H; assumption end.
  - unfold insert_category. rewrite (find_none_existsb _ _ Hf). simpl.
    split; [intros [H|H]; congruence|].
    split.
    { intros n c [= <-] _ Hin Hc. rewrite find_none_iff in Hf.
      specialize (Hf c Hin). unfold name_is in Hf. apply String.eqb_neq in Hf.
      contradiction. }
    split; [intros n [= <-] _ _; repeat split|].
    split; [discriminate|].
    split; [|repeat split].
    intros [Hid Hnm]. split; rewrite map_app; simpl; apply NoDup_app.
    + split; [assumption|]. split; [|apply NoDup_singleton].
      intros x Hx Hx'. apply list_elem_of_singleton in Hx'. subst x.
      apply list_elem_of_fmap in Hx as (c & Hc & Hin).
      pose proof (next_id_fresh c_id (categories (db w))) as Hfr.
      rewrite Forall_forall in Hfr. specialize (Hfr c Hin). simpl in Hfr. lia.
    + split; [assumption|]. split; [|apply NoDup_singleton].
      intros x Hx Hx'. apply list_elem_of_singleton in Hx'. subst x.
      apply list_elem_of_fmap in Hx as (c & Hc & Hin).
      rewrite find_none_iff in Hf. specialize (Hf c Hin).
      unfold name_is in Hf. apply String.eqb_neq in Hf. congruence.
Qed.

Lemma add_category_spec_witness :
  let form : gmap string string := {["name" := "Drinks"]} in
  let w := admin_fresh in
  let cs := categories (db w) in
  let w' := snd (add_category form w) in
  (form !! "name" = None \/ form !! "name" = Some "" ->
     add_category form w =
       (Std (Redirect "admin_menu" None), flash "Category name is required" "danger" w)) /\
  (forall name c, form !! "name" = Some name -> name <> "" ->
     c ∈ cs -> c_name c = name ->
     add_category form w =
       (Std (Redirect "admin_menu" None), flash "Category already exists" "danger" w)) /\
  (forall name, form !! "name" = Some name -> name <> "" ->
     (forall c, c ∈ cs -> c_name c <> name) ->
     fst (add_category form w) = Std (Redirect "admin_menu" None) /\
     flashes w' = flashes w ++ [("Category added successfully", "success")] /\
     categories (db w') = cs ++ [ {| c_id := next_id c_id cs; c_name := name |} ]) /\
  fst (add_category form w) <> IntegrityError /\
  (categories_unique cs -> categories_unique (categories (db w'))) /\
  users (db w') = users (db w) /\ menu_items (db w') = menu_items (db w) /\
  orders (db w') = orders (db w) /\ order_items (db w') = order_items (db w).
Proof.
  apply (add_category_spec {["name" := "Drinks"]} admin_fresh sample_admin).
  vm_compute. repeat split.
Defined.

(** ** The dashboard *)

Lemma with_status_app (s : string) (l k : list Order) :
  with_status s (l ++ k) = with_status s l ++ with_status s k.
Proof. unfold with_status. apply List.filter_app. Qed.

(** The three classes of orders by status cover the table once. *)
Lemma status_partition (rows : list Order) :
  (length (with_status "Pending" rows) + length (with_status "Completed" rows)
   + length (List.filter (fun o => negb (String.eqb (o_status o) "Pending")
                                   && negb (String.eqb (o_status o) "Completed")) rows)
   = length rows)%nat.
Proof.
  unfold with_status. induction rows as [|o rows IH]; simpl; [reflexivity|].
  destruct (String.eqb_spec (o_status o) "Pending") as [E|E]; simpl.
  - rewrite E. simpl. lia.
  - destruct (String.eqb (o_status o) "Completed"); simpl; lia.
Qed.

Lemma with_status_count (s : string) (rows : list Order) :
  length (with_status s rows) = orders_in_status s rows.
Proof.
  unfold with_status, orders_in_status.
  induction rows as [|o rows IH]; simpl; [reflexivity|].
  rewrite filter_cons.
  destruct (String.eqb_spec (o_status o) s) as [E|E];
    destruct (decide (o_status o = s)) as [D|D]; try contradiction; simpl;
    now rewrite IH.
Qed.

(** X14. The dashboard counts: the admin is shown, in this order, the
    number of rows of the order table, the number of its orders that are
    Pending, the number that are Completed and the number of rows of the
    user table. Pending and completed never exceed the total, and the
    difference is the number of orders in any other status (the Cancelled
    ones), which the dashboard does not show. *)
Theorem dashboard_counts (w : World) (u : User) :
  admin_session w u ->
  let rows := orders (db w) in
  admin_dashboard w =
    (Render (DashboardPage (length rows) (orders_in_status "Pending" rows)
                           (orders_in_status "Completed" rows) (length (users (db w)))), w) /\
  (orders_in_status "Pending" rows + orders_in_status "Completed" rows <= length rows)%nat /\
  (length rows - (orders_in_status "Pending" rows + orders_in_status "Completed" rows))%nat
  = length (filter (fun o => o_status o <> "Pending" /\ o_status o <> "Completed") rows) /\
  (Forall (fun o => o_status o = "Pending" \/ o_status o = "Completed") rows ->
   (orders_in_status "Pending" rows + orders_in_status "Completed" rows = length rows)%nat).
Proof.
  intros Hadm. cbv zeta. unfold admin_dashboard.
  rewrite (admin_required_view_admin _ _ _ Hadm). cbv zeta.
  rewrite !with_status_count.
  split; [reflexivity|].
  assert (Hp : (orders_in_status "Pending" (orders (db w))
                + orders_in_status "Completed" (orders (db w))
                + length (filter (fun o => o_status o <> "Pending" /\
                                           o_status o <> "Completed") (orders (db w)))
                = length (orders (db w)))%nat).
  { unfold orders_in_status. induction (orders (db w)) as [|o rows IH]; [reflexivity|].
    rewrite !filter_cons.
    destruct (decide (o_status o = "Pending")) as [E|E];
      destruct (decide (o_status o = "Completed")) as [E'|E'];
      destruct (decide (o_status o <> "Pending" /\ o_status o <> "Completed"))
        as [D|D]; simpl; try lia; try (exfalso; tauto).
    rewrite E in E'. discriminate E'. }
  split; [lia|]. split; [lia|].
  intros Hall.
  assert (Hz : filter (fun o => o_status o <> "Pending" /\ o_status o <> "Completed")
                      (orders (db w)) = []).
  { clear -Hall. induction Hall as [|o rows Ho _ IH]; [reflexivity|].
    rewrite filter_cons.
    destruct (decide (o_status o <> "Pending" /\ o_status o <> "Completed")) as [D|D];
      [exfalso; tauto | exact IH]. }
  rewrite Hz in Hp. simpl in Hp. lia.
Qed.

Lemma dashboard_counts_witness :
  let w := snd (update_order_status 1 {["status" := "Completed"]} admin_after) in
  let rows := orders (db w) in
  admin_dashboard w =
    (Render (DashboardPage (length rows) (orders_in_status "Pending" rows)
                           (orders_in_status "Completed" rows) (length (users (db w)))), w) /\
  (orders_in_status "Pending" rows + orders_in_status "Completed" rows <= length rows)%nat /\
  (length rows - (orders_in_status "Pending" rows + orders_in_status "Completed" rows))%nat
  = length (filter (fun o => o_status o <> "Pending" /\ o_status o <> "Completed") rows) /\
  (Forall (fun o => o_status o = "Pending" \/ o_status o = "Completed") rows ->
   (orders_in_status "Pending" rows + orders_in_status "Completed" rows = length rows)%nat).
Proof.
  apply (dashboard_counts
           (snd (update_order_status 1 {["status" := "Completed"]} admin_after))
           sample_admin).
  vm_compute. repeat split.
Defined.

(** On the sample store with alice's order completed the dashboard shows
    one order, none pending, one completed, three users. *)
Example dashboard_sample :
  fst (admin_dashboard
         (snd (update_order_status 1 {["status" := "Completed"]} admin_after)))
  = Render (DashboardPage 1 0 1 3).
Proof. reflexivity. Qed.

(** X15. A successful checkout shows on the dashboard as one more order
    and one more pending order: for an admin looking at the store before
    and after the checkout, total and pending each grow by exactly 1 while
    completed and the number of users stay. *)
Theorem checkout_bumps_dashboard
    (wc wc' wa : World) (u : User) (oid : option Z) :
  admin_session wa u ->
  db wa = db wc ->
  checkout wc = (Redirect "order_confirmation" oid, wc') ->
  exists total pending completed nusers : nat,
    admin_dashboard wa = (Render (DashboardPage total pending completed nusers), wa) /\
    admin_dashboard (set_db (db wc') wa)
      = (Render (DashboardPage (S total) (S pending) completed nusers), set_db (db wc') wa).
Proof.
  intros Hadm Hdb H.
  apply checkout_success_inv in H as (uid & t & _ & _ & _ & _ & ->).
  assert (Hadm' : admin_session
                    (set_db (db (flash "Order placed successfully!" "success"
                       (set_cart None (set_db
                          {| users := users (db wc); categories := categories (db wc);
                             menu_items := menu_items (db wc);
                             orders := orders (db wc)
                               ++ [ {| o_id := next_id o_id (orders (db wc));
                                       o_user_id := uid; o_total := t;
                                       o_status := "Pending" |} ];
                             order_items :=
                               fold_left (add_order_item (next_id o_id (orders (db wc))))
                                         (session_cart wc) (order_items (db wc)) |} wc))))
                       wa) u).
  { destruct Hadm as (Hs & Hq & Ha). rewrite Hdb in Hq. repeat split; assumption. }
  unfold admin_dashboard.
  rewrite (admin_required_view_admin _ _ _ Hadm), (admin_required_view_admin _ _ _ Hadm').
  cbv zeta. do 4 eexists. split; [reflexivity|].
  simpl. rewrite Hdb, !with_status_app, !length_app. simpl.
  repeat f_equal; lia.
Qed.

Lemma checkout_bumps_dashboard_witness :
  exists total pending completed nusers : nat,
    admin_dashboard admin_fresh
      = (Render (DashboardPage total pending completed nusers), admin_fresh) /\
    admin_dashboard (set_db (db (snd (checkout alice_shopping))) admin_fresh)
      = (Render (DashboardPage (S total) (S pending) completed nusers),
         set_db (db (snd (checkout alice_shopping))) admin_fresh).
Proof.
  apply (checkout_bumps_dashboard alice_shopping (snd (checkout alice_shopping))
           admin_fresh sample_admin (Some 1)).
  - vm_compute. repeat split.
  - reflexivity.
  - reflexivity.
Defined.

Lemma set_status_absent (id : Z) (s : string) (rows : list Order) :
  id ∉ map o_id rows -> set_status id s rows = rows.
Proof.
  induction rows as [|x rows IH]; simpl; intros Hn; [reflexivity|].
  apply not_elem_of_cons in Hn as [Hne Hn].
  destruct (Z.eqb_spec (o_id x) id); [congruence|]. f_equal. now apply IH.
Qed.

Lemma with_status_set_status
    (rows : list Order) (id : Z) (s t : string) (order : Order) :
  NoDup (map o_id rows) ->
  query_get o_id rows id = Some order ->
  (length (with_status t (set_status id s rows))
   + (if String.eqb (o_status order) t then 1 else 0)
   = length (with_status t rows) + (if String.eqb s t then 1 else 0))%nat.
Proof.
  unfold query_get. induction rows as [|x rows IH]; simpl; intros Hnd Hq; [discriminate|].
  apply NoDup_cons in Hnd as [Hx Hnd].
  destruct (Z.eqb_spec (o_id x) id) as [E|E].
  - injection Hq as <-. rewrite <- E, (set_status_absent _ _ _ Hx).
    unfold with_status. simpl.
    destruct (String.eqb s t), (String.eqb (o_status x) t); simpl; lia.
  - specialize (IH Hnd Hq). unfold with_status in *. simpl.
    destruct (String.eqb (o_status x) t); simpl; lia.
Qed.

Lemma update_order_status_db
    (order_id : Z) (form : gmap string string) (w : World) (u : User)
    (order : Order) (s : string) :
  admin_session w u ->
  query_get o_id (orders (db w)) order_id = Some order ->
  form !! "status" = Some s ->
  s = "Pending" \/ s = "Completed" \/ s = "Cancelled" ->
  orders (db (snd (update_order_status order_id form w)))
  = set_status order_id s (orders (db w)).
Proof.
  intros Hadm Hq Hs Hin.
  assert (Hal : allowed_status (form !! "status") = true).
  { apply allowed_status_true. rewrite Hs. destruct Hin as [-> | [-> | ->]]; auto. }
  unfold update_order_status.
  rewrite (admin_required_admin _ _ _ Hadm), Hq, Hal, Hs. simpl.
  now rewrite (query_get_pk _ _ _ _ Hq).
Qed.

(** X16. An accepted status update moves exactly one order between the
    dashboard's counts: in a table with distinct order ids the number of
    rows stays, and for every status the count of rows in it drops by one
    if the order was in it and grows by one if it is the new status. *)
Theorem status_update_moves_counts
    (order_id : Z) (form : gmap string string) (w : World) (u : User)
    (order : Order) (s : string) :
  admin_session w u ->
  NoDup (map o_id (orders (db w))) ->
  query_get o_id (orders (db w)) order_id = Some order ->
  form !! "status" = Some s ->
  s = "Pending" \/ s = "Completed" \/ s = "Cancelled" ->
  let rows := orders (db w) in
  let rows' := orders (db (snd (update_order_status order_id form w))) in
  length rows' = length rows /\
  map o_id rows' = map o_id rows /\
  forall t : string,
    (length (with_status t rows') + (if String.eqb (o_status order) t then 1 else 0)
     = length (with_status t rows) + (if String.eqb s t then 1 else 0))%nat.
Proof.
  intros Hadm Hnd Hq Hs Hin. cbv zeta.
  rewrite (update_order_status_db _ _ _ _ _ _ Hadm Hq Hs Hin).
  split; [unfold set_status; now rewrite length_map|].
  split.
  - unfold set_status. rewrite map_map. apply map_ext. intros o.
    now destruct (o_id o =? order_id).
  - intros t. now apply with_status_set_status.
Qed.

Lemma status_update_moves_counts_witness :
  let form : gmap string string := {["status" := "Completed"]} in
  let rows := orders (db admin_after) in
  let rows' := orders (db (snd (update_order_status 1 form admin_after))) in
  length rows' = length rows /\
  map o_id rows' = map o_id rows /\
  forall t : string,
    (length (with_status t rows') + (if String.eqb "Pending" t then 1 else 0)
     = length (with_status t rows) + (if String.eqb "Completed" t then 1 else 0))%nat.
Proof.
  apply (status_update_moves_counts 1 {["status" := "Completed"]} admin_after sample_admin
           {| o_id := 1; o_user_id := 2; o_total := 13.5; o_status := "Pending" |}
           "Completed").
  - vm_compute. repeat split.
  - vm_compute. repeat constructor. intros H. inversion H.
  - reflexivity.
  - reflexivity.
  - right. left. reflexivity.
Defined.

(** ** Listings *)







(** ** make_admin *)

Lemma query_get_promote (rows : list User) (target id : Z) :
  query_get u_id (promote target rows) id =
  (fun u => if u_id u =? target
            then {| u_id := u_id u; u_username := u_username u; u_email := u_email u;
                    u_password := u_password u; u_is_admin := true |}
            else u) <$> query_get u_id rows id.
Proof.
  unfold query_get, promote.
  induction rows as [|x rows IH]; simpl; [reflexivity|].
  destruct (u_id x =? target) eqn:E; simpl;
    destruct (u_id x =? id) eqn:E'; simpl; try rewrite E; auto.
Qed.

Lemma promote_promote (target : Z) (rows : list User) :
  promote target (promote target rows) = promote target rows.
Proof.
  unfold promote. rewrite map_map. apply map_ext. intros x.
  destruct (u_id x =? target) eqn:E; simpl; now rewrite E.
Qed.

Lemma make_admin_eq (target : Z) (w : World) (u user : User) :
  admin_session w u ->
  query_get u_id (users (db w)) target = Some user ->
  make_admin target w =
    (Std (Redirect "admin_users" None),
     flash (String.append (u_username user) " is now an admin") "success"
       (set_db {| users := promote target (users (db w)); categories := categories (db w);
                  menu_items := menu_items (db w); orders := orders (db w);
                  order_items := order_items (db w) |} w)).
Proof.
  intros Hadm Hq. unfold make_admin.
  rewrite (admin_required_view_admin _ _ _ Hadm), Hq.
  now rewrite (query_get_pk _ _ _ _ Hq).
Qed.

(** X19. make_admin, sent by an admin for an existing user, sets that
    user's admin flag and nothing else, and the promotion holds at once:
    any session of the promoted user passes the admin check from then on
    (the check reads the user table, not the flag copied into the session
    at login). For a user id that does not exist the answer is 404, or
    the OverflowError of the lookup when the id is no 64-bit integer, and
    nothing is written. *)
Theorem make_admin_promotes (target : Z) (w : World) (u user : User) :
  admin_session w u ->
  query_get u_id (users (db w)) target = Some user ->
  let w' := snd (make_admin target w) in
  let promoted := {| u_id := target; u_username := u_username user;
                     u_email := u_email user; u_password := u_password user;
                     u_is_admin := true |} in
  fst (make_admin target w) = Std (Redirect "admin_users" None) /\
  flashes w' = flashes w ++ [(String.append (u_username user) " is now an admin", "success")] /\
  query_get u_id (users (db w')) target = Some promoted /\
  (forall id, id <> target ->
     query_get u_id (users (db w')) id = query_get u_id (users (db w)) id) /\
  (forall (s : Session) (f : list (string * string)),
     user_id s = Some target ->
     admin_session {| db := db w'; session := s; flashes := f |} promoted) /\
  (forall id, query_get u_id (users (db w)) id = None ->
     - 2 ^ 63 <= id < 2 ^ 63 ->
     make_admin id w = (Std NotFound, w)) /\
  (forall id, query_get u_id (users (db w)) id = None ->
     ~ (- 2 ^ 63 <= id < 2 ^ 63) ->
     make_admin id w = (Std (Raise OverflowError), w)).
Proof.
  intros Hadm Hq. cbv zeta.
  pose proof (query_get_pk _ _ _ _ Hq) as Hid.
  rewrite (make_admin_eq _ _ _ _ Hadm Hq). simpl.
  assert (Hp : query_get u_id (promote target (users (db w))) target
               = Some {| u_id := target; u_username := u_username user;
                         u_email := u_email user; u_password := u_password user;
                         u_is_admin := true |}).
  { rewrite query_get_promote, Hq. simpl. rewrite Hid, Z.eqb_refl. reflexivity. }
  split; [reflexivity|]. split; [reflexivity|]. split; [exact Hp|].
  split; [|split; [|split]].
  - intros id Hne. rewrite query_get_promote.
    destruct (query_get u_id (users (db w)) id) as [x|] eqn:E; [|reflexivity].
    simpl. apply query_get_pk in E. rewrite E.
    destruct (Z.eqb_spec id target); [contradiction | reflexivity].
  - intros s f Hs. repeat split; simpl; assumption.
  - intros id Hnone Hr. unfold make_admin.
    now rewrite (admin_required_view_admin _ _ _ Hadm), Hnone, (no_row_in_range _ Hr).
  - intros id Hnone Hr. unfold make_admin.
    now rewrite (admin_required_view_admin _ _ _ Hadm), Hnone, (no_row_out_of_range _ Hr).
Qed.

Lemma make_admin_promotes_witness :
  let w := admin_fresh in
  let user := mkUser 2 "alice" "alice@example.com" "sha256$2" false in
  let w' := snd (make_admin 2 w) in
  let promoted := {| u_id := 2; u_username := u_username user;
                     u_email := u_email user; u_password := u_password user;
                     u_is_admin := true |} in
  fst (make_admin 2 w) = Std (Redirect "admin_users" None) /\
  flashes w' = flashes w ++ [(String.append (u_username user) " is now an admin", "success")] /\
  query_get u_id (users (db w')) 2 = Some promoted /\
  (forall id, id <> 2 ->
     query_get u_id (users (db w')) id = query_get u_id (users (db w)) id) /\
  (forall (s : Session) (f : list (string * string)),
     user_id s = Some 2 ->
     admin_session {| db := db w'; session := s; flashes := f |} promoted) /\
  (forall id, query_get u_id (users (db w)) id = None ->
     - 2 ^ 63 <= id < 2 ^ 63 ->
     make_admin id w = (Std NotFound, w)) /\
  (forall id, query_get u_id (users (db w)) id = None ->
     ~ (- 2 ^ 63 <= id < 2 ^ 63) ->
     make_admin id w = (Std (Raise OverflowError), w)).
Proof.
  apply (make_admin_promotes 2 admin_fresh sample_admin
           (mkUser 2 "alice" "alice@example.com" "sha256$2" false)).
  - vm_compute. repeat split.
  - reflexivity.
Defined.

(** X20. make_admin only ever grants: whoever was an admin before is one
    after, names, e-mails, passwords and ids are untouched, and sending
    the same request again changes nothing in the store. *)
Theorem make_admin_only_grants (target : Z) (w : World) :
  let w' := snd (make_admin target w) in
  Forall2 (fun x x' => u_id x' = u_id x /\ u_username x' = u_username x /\
                       u_email x' = u_email x /\ u_password x' = u_password x /\
                       (u_is_admin x = true -> u_is_admin x' = true))
          (users (db w)) (users (db w')) /\
  db (snd (make_admin target w')) = db w' /\
  categories (db w') = categories (db w) /\ menu_items (db w') = menu_items (db w) /\
  orders (db w') = orders (db w) /\ order_items (db w') = order_items (db w) /\
  session w' = session w.
Proof.
  cbv zeta.
  assert (Hsame : forall us : list User,
             Forall2 (fun x x' => u_id x' = u_id x /\ u_username x' = u_username x /\
                                  u_email x' = u_email x /\ u_password x' = u_password x /\
                                  (u_is_admin x = true -> u_is_admin x' = true)) us us).
  { induction us; constructor; auto. }
  assert (Hprom : forall t (us : list User),
             Forall2 (fun x x' => u_id x' = u_id x /\ u_username x' = u_username x /\
                                  u_email x' = u_email x /\ u_password x' = u_password x /\
                                  (u_is_admin x = true -> u_is_admin x' = true))
                     us (promote t us)).
  { intros t us. induction us as [|x us IH]; simpl; constructor; auto.
    destruct (u_id x =? t); simpl; repeat split; auto. }
  unfold make_admin at 1 3 4 5 6 7 8 9. unfold admin_required_view.
  destruct (user_id (session w)) as [uid|] eqn:Hu;
    [| simpl; split; [apply Hsame|]; split;
       [unfold make_admin, admin_required_view; simpl; now rewrite Hu | repeat split]].
  destruct (query_get u_id (users (db w)) uid) as [a|] eqn:Ha;
    [| simpl; split; [apply Hsame|]; split;
       [unfold make_admin, admin_required_view; simpl; now rewrite Hu, Ha | repeat split]].
  destruct (u_is_admin a) eqn:Hadm; simpl;
    [| split; [apply Hsame|]; split;
       [unfold make_admin, admin_required_view; simpl; now rewrite Hu, Ha, Hadm
       | repeat split]].
  destruct (query_get u_id (users (db w)) target) as [user|] eqn:Hq; simpl;
    [| split; [apply Hsame|]; split;
       [unfold make_admin, admin_required_view; simpl; now rewrite Hu, Ha, Hadm, Hq
       | repeat split]].
  pose proof (query_get_pk _ _ _ _ Hq) as Hid. rewrite Hid.
  split; [apply Hprom|]. split; [|repeat split].
  unfold make_admin, admin_required_view. simpl. rewrite Hu.
  rewrite !query_get_promote, Ha, Hq. simpl.
  replace (u_is_admin (if u_id a =? target
                       then {| u_id := u_id a; u_username := u_username a;
                               u_email := u_email a; u_password := u_password a;
                               u_is_admin := true |}
                       else a)) with true
    by (destruct (u_id a =? target); simpl; congruence).
  simpl. rewrite Hid, Z.eqb_refl. simpl. now rewrite promote_promote.
Qed.

(* ===================================================================== *)
(** * Further properties: accounts *)
(* ===================================================================== *)

Lemma find_app_new {A : Type} (p : A -> bool) (l : list A) (x : A) :
  find p l = None -> p x = true -> find p (l ++ [x]) = Some x.
Proof.
  intros Hn Hx. induction l as [|y l IH]; simpl in *; [now rewrite Hx|].
  destruct (p y); [discriminate | now apply IH].
Qed.

Lemma existsb_false_iff {A : Type} (p : A -> bool) (l : list A) :
  existsb p l = false <-> (forall x, x ∈ l -> p x = false).
Proof.
  induction l as [|y l IH]; simpl.
  - split; [intros _ x Hx; inversion Hx | reflexivity].
  - rewrite orb_false_iff, IH. split.
    + intros [Hy H] x Hx. apply elem_of_cons in Hx as [->|Hx]; auto.
    + intros H. split; [apply H; left | intros x Hx; apply H; now right].
Qed.

Lemma NoDup_snoc_fresh {A : Type} (l : list A) (x : A) :
  NoDup l -> x ∉ l -> NoDup (l ++ [x]).
Proof.
  intros Hnd Hx. apply NoDup_app. split; [assumption|].
  split; [|apply NoDup_singleton].
  intros y Hy Hy'. apply list_elem_of_singleton in Hy'. now subst y.
Qed.

Lemma next_id_not_in {R : Type} (pk : R -> Z) (rows : list R) :
  next_id pk rows ∉ map pk rows.
Proof.
  intros Hin. apply list_elem_of_fmap in Hin as (r & Hr & Hin).
  pose proof (next_id_fresh pk rows) as Hfr. rewrite Forall_forall in Hfr.
  specialize (Hfr r Hin). simpl in Hfr. lia.
Qed.

(** An accepted insert keeps the unique columns of the user table free of
    repetitions. *)
Lemma insert_user_unique (username email password : string) (a : bool) (d d' : Db) :
  insert_user username email password a d = Some d' ->
  users_unique (users d) -> users_unique (users d').
Proof.
  unfold insert_user.
  destruct (existsb (username_is username) (users d)) eqn:En; [discriminate|].
  destruct (existsb (email_is email) (users d)) eqn:Ee; [discriminate|].
  simpl. intros [= <-] (Hid & Hn & He). simpl.
  rewrite existsb_false_iff in En, Ee.
  repeat split; rewrite map_app; simpl; apply NoDup_snoc_fresh; auto.
  - apply next_id_not_in.
  - intros Hin. apply list_elem_of_fmap in Hin as (x & Hx & Hin).
    specialize (En x Hin). unfold username_is in En. apply String.eqb_neq in En. congruence.
  - intros Hin. apply list_elem_of_fmap in Hin as (x & Hx & Hin).
    specialize (Ee x Hin). unfold email_is in Ee. apply String.eqb_neq in Ee. congruence.
Qed.

Lemma insert_user_frame (username email password : string) (a : bool) (d d' : Db) :
  insert_user username email password a d = Some d' ->
  categories d' = categories d /\ menu_items d' = menu_items d /\
  orders d' = orders d /\ order_items d' = order_items d.
Proof.
  unfold insert_user.
  destruct (existsb (username_is username) (users d) || existsb (email_is email) (users d));
    [discriminate|].
  intros [= <-]. repeat split.
Qed.

(** Closes the goals of a branch that writes nothing. *)
Ltac unchanged :=
  repeat split; try discriminate; auto;
  try (intros;
       match goal with
       | H : users_unique _ |- _ => destruct H as (? & ? & ?); assumption
       end).

Section AccountFacts.

Variable generate_password_hash : string -> string -> string.
Variable check_password_hash : string -> string -> bool.

(** The checks of register cover the unique constraints of the insert. *)
Lemma register_insert_accepted (username email password : string) (d : Db) :
  find (username_is username) (users d) = None ->
  find (email_is email) (users d) = None ->
  insert_user username email password false d =
    Some {| users := users d ++ [ {| u_id := next_id u_id (users d);
                                     u_username := username; u_email := email;
                                     u_password := password; u_is_admin := false |} ];
            categories := categories d; menu_items := menu_items d;
            orders := orders d; order_items := order_items d |}.
Proof.
  intros Hn He. unfold insert_user.
  now rewrite (find_none_existsb _ _ Hn), (find_none_existsb _ _ He).
Qed.

(** X21. A registration whose username and e-mail are both free stores
    exactly one new user, under a fresh id, with the hash of the password
    and without admin rights, and sends the visitor to the login page;
    nothing else in the store or the session changes. *)
Theorem register_creates_customer
    (form : gmap string string) (salt : string) (w : World)
    (username email password : string) :
  form !! "username" = Some username ->
  form !! "email" = Some email ->
  form !! "password" = Some password ->
  (forall x, x ∈ users (db w) -> u_username x <> username) ->
  (forall x, x ∈ users (db w) -> u_email x <> email) ->
  let new_user := {| u_id := next_id u_id (users (db w)); u_username := username;
                     u_email := email;
                     u_password := generate_password_hash salt password;
                     u_is_admin := false |} in
  register generate_password_hash "POST" form salt w =
    (Std (Redirect "login" None),
     flash "Registration successful. Please login." "success"
       (set_db {| users := users (db w) ++ [new_user]; categories := categories (db w);
                  menu_items := menu_items (db w); orders := orders (db w);
                  order_items := order_items (db w) |} w)) /\
  Forall (fun x => u_id x <> u_id new_user) (users (db w)).
Proof.
  intros Hu He Hp Hfn Hfe. cbv zeta.
  assert (Hn : find (username_is username) (users (db w)) = None).
  { apply find_none_iff. intros x Hx. apply String.eqb_neq. now apply Hfn. }
  assert (Hm : find (email_is email) (users (db w)) = None).
  { apply find_none_iff. intros x Hx. apply String.eqb_neq. now apply Hfe. }
  split.
  - unfold register. simpl. rewrite Hu, He, Hp, Hn, Hm.
    now rewrite (register_insert_accepted _ _ _ _ Hn Hm).
  - eapply Forall_impl; [apply (next_id_fresh u_id)|]. intros x Hx. simpl in *. lia.
Qed.

(** A registration answered with the redirect to the login page, spelled
    out. *)
Lemma register_success_inv
    (method : string) (form : gmap string string) (salt : string) (w w1 : World) :
  register generate_password_hash method form salt w = (Std (Redirect "login" None), w1) ->
  exists username email password,
    form !! "username" = Some username /\ form !! "email" = Some email /\
    form !! "password" = Some password /\
    find (username_is username) (users (db w)) = None /\
    find (email_is email) (users (db w)) = None /\
    w1 = flash "Registration successful. Please login." "success"
           (set_db {| users := users (db w)
                        ++ [ {| u_id := next_id u_id (users (db w));
                                u_username := username; u_email := email;
                                u_password := generate_password_hash salt password;
                                u_is_admin := false |} ];
                      categories := categories (db w); menu_items := menu_items (db w);
                      orders := orders (db w); order_items := order_items (db w) |} w).
Proof.
  unfold register.
  destruct (String.eqb method "POST"); [|discriminate].
  destruct (form !! "username") as [username|]; [|discriminate].
  destruct (form !! "email") as [email|]; [|discriminate].
  destruct (form !! "password") as [password|]; [|discriminate].
  destruct (find (username_is username) (users (db w))) eqn:Hn; [discriminate|].
  destruct (find (email_is email) (users (db w))) eqn:Hm; [discriminate|].
  rewrite (register_insert_accepted _ _ _ _ Hn Hm).
  intros [= <-]. exists username, email, password. repeat split; assumption.
Qed.

(** X22. Registering twice fails the second time: after a successful
    registration, a later registration with the same username is answered
    with "Username already taken", and one with the same e-mail with that
    message or "Email already registered"; neither writes to the store. *)
Theorem register_rejects_duplicates
    (form1 form2 : gmap string string) (salt1 salt2 : string) (w w1 : World)
    (username2 email2 password2 : string) :
  register generate_password_hash "POST" form1 salt1 w = (Std (Redirect "login" None), w1) ->
  form2 !! "username" = Some username2 ->
  form2 !! "email" = Some email2 ->
  form2 !! "password" = Some password2 ->
  let second := register generate_password_hash "POST" form2 salt2 w1 in
  (form1 !! "username" = Some username2 ->
     second = (Std (Redirect "register" None), flash "Username already taken" "danger" w1)) /\
  (form1 !! "email" = Some email2 ->
     second = (Std (Redirect "register" None), flash "Username already taken" "danger" w1) \/
     second = (Std (Redirect "register" None), flash "Email already registered" "danger" w1)) /\
  (form1 !! "username" = Some username2 \/ form1 !! "email" = Some email2 ->
     db (snd second) = db w1).
Proof.
  intros H Hu2 He2 Hp2. cbv zeta.
  apply register_success_inv in H as (username & email & password & Hu & He & Hp & Hn & Hm & ->).
  set (new_user := {| u_id := next_id u_id (users (db w)); u_username := username;
                      u_email := email;
                      u_password := generate_password_hash salt1 password;
                      u_is_admin := false |}).
  assert (Hsame_name : form1 !! "username" = Some username2 ->
            register generate_password_hash "POST" form2 salt2
              (flash "Registration successful. Please login." "success"
                 (set_db {| users := users (db w) ++ [new_user];
                            categories := categories (db w);
                            menu_items := menu_items (db w); orders := orders (db w);
                            order_items := order_items (db w) |} w))
            = (Std (Redirect "register" None),
               flash "Username already taken" "danger"
                 (flash "Registration successful. Please login." "success"
                    (set_db {| users := users (db w) ++ [new_user];
                               categories := categories (db w);
                               menu_items := menu_items (db w); orders := orders (db w);
                               order_items := order_items (db w) |} w)))).
  { intros Heq. rewrite Hu in Heq. injection Heq as <-.
    unfold register. simpl. rewrite Hu2, He2, Hp2.
    rewrite (find_app_new _ _ new_user Hn); [reflexivity|].
    unfold username_is. simpl. apply String.eqb_refl. }
  assert (Hsame_mail : form1 !! "email" = Some email2 ->
            register generate_password_hash "POST" form2 salt2
              (flash "Registration successful. Please login." "success"
                 (set_db {| users := users (db w) ++ [new_user];
                            categories := categories (db w);
                            menu_items := menu_items (db w); orders := orders (db w);
                            order_items := order_items (db w) |} w))
            = (Std (Redirect "register" None),
               flash "Username already taken" "danger"
                 (flash "Registration successful. Please login." "success"
                    (set_db {| users := users (db w) ++ [new_user];
                               categories := categories (db w);
                               menu_items := menu_items (db w); orders := orders (db w);
                               order_items := order_items (db w) |} w)))
            \/
            register generate_password_hash "POST" form2 salt2
              (flash "Registration successful. Please login." "success"
                 (set_db {| users := users (db w) ++ [new_user];
                            categories := categories (db w);
                            menu_items := menu_items (db w); orders := orders (db w);
                            order_items := order_items (db w) |} w))
            = (Std (Redirect "register" None),
               flash "Email already registered" "danger"
                 (flash "Registration successful. Please login." "success"
                    (set_db {| users := users (db w) ++ [new_user];
                               categories := categories (db w);
                               menu_items := menu_items (db w); orders := orders (db w);
                               order_items := order_items (db w) |} w)))).
  { intros Heq. rewrite He in Heq. injection Heq as <-.
    unfold register. simpl. rewrite Hu2, He2, Hp2.
    destruct (find (username_is username2) (users (db w) ++ [new_user]));
      [now left | right].
    rewrite (find_app_new _ _ new_user Hm); [reflexivity|].
    unfold email_is. simpl. apply String.eqb_refl. }
  split; [exact Hsame_name|]. split; [exact Hsame_mail|].
  intros [Heq|Heq].
  - now rewrite (Hsame_name Heq).
  - destruct (Hsame_mail Heq) as [-> | ->]; reflexivity.
Qed.

(** X23. register never runs into the unique constraints and keeps the
    user table sound: for every method, form and store the answer is never
    an IntegrityError; ids, usernames and e-mails that were distinct stay
    distinct; the other tables and the session are never touched. *)
Theorem register_keeps_users_unique
    (method : string) (form : gmap string string) (salt : string) (w : World) :
  let w' := snd (register generate_password_hash method form salt w) in
  fst (register generate_password_hash method form salt w) <> IntegrityError /\
  (users_unique (users (db w)) -> users_unique (users (db w'))) /\
  categories (db w') = categories (db w) /\ menu_items (db w') = menu_items (db w) /\
  orders (db w') = orders (db w) /\ order_items (db w') = order_items (db w) /\
  session w' = session w.
Proof.
  cbv zeta. unfold register.
  destruct (String.eqb method "POST"); [|unchanged].
  destruct (form !! "username") as [username|]; [|unchanged].
  destruct (form !! "email") as [email|]; [|unchanged].
  destruct (form !! "password") as [password|]; [|unchanged].
  destruct (find (username_is username) (users (db w))) eqn:Hn;
    [unchanged|].
  destruct (find (email_is email) (users (db w))) eqn:Hm;
    [unchanged|].
  pose proof (register_insert_accepted username email
                (generate_password_hash salt password) (db w) Hn Hm) as Hins.
  rewrite Hins. simpl.
  split; [discriminate|]. split; [|repeat split].
  intros Huq. apply (insert_user_unique _ _ _ _ _ _ Hins Huq).
Qed.

(** X24. A POST to register or login without one of its form fields is
    answered with 400 Bad Request before anything is looked up; the store
    and the session stay as they were. *)
Theorem missing_form_field_is_bad_request
    (form : gmap string string) (salt : string) (w : World) (s : Site) :
  (form !! "username" = None \/ form !! "email" = None \/ form !! "password" = None ->
     register generate_password_hash "POST" form salt w = (BadRequest, w)) /\
  (form !! "username" = None \/ form !! "password" = None ->
     fst (login check_password_hash "POST" form s) = BadRequest /\
     site_world (snd (login check_password_hash "POST" form s)) = site_world s /\
     site_username (snd (login check_password_hash "POST" form s)) = site_username s /\
     site_is_admin (snd (login check_password_hash "POST" form s)) = site_is_admin s).
Proof.
  split.
  - intros H. unfold register. simpl.
    destruct (form !! "username"); [|reflexivity].
    destruct (form !! "email"); [|reflexivity].
    destruct (form !! "password"); [|reflexivity].
    destruct H as [H|[H|H]]; discriminate H.
  - intros H. unfold login. simpl.
    destruct (form !! "username"); [|repeat split].
    destruct (form !! "password"); [|repeat split].
    destruct H as [H|H]; discriminate H.
Qed.

(** The outcome of a login whose user is found and whose password is
    accepted. *)
Lemma login_accepted
    (form : gmap string string) (s : Site) (username password : string) (user : User) :
  form !! "username" = Some username ->
  form !! "password" = Some password ->
  find (username_is username) (users (db (site_world s))) = Some user ->
  check_password_hash (u_password user) password = true ->
  login check_password_hash "POST" form s =
    (Std (Redirect (if u_is_admin user then "admin_dashboard" else "customer_menu") None),
     {| site_world :=
          {| db := db (site_world s);
             session := {| user_id := Some (u_id user);
                           cart := cart (session (site_world s)) |};
             flashes := flashes (site_world s) |};
        site_username := Some (u_username user);
        site_is_admin := Some (u_is_admin user) |}).
Proof.
  intros Hu Hp Hf Hc. unfold login. simpl. now rewrite Hu, Hp, Hf, Hc.
Qed.

(** X25. Register, then log in: with a password hashing that accepts the
    password it hashed, the username and password of a successful
    registration log in at once. The session then carries the id of the
    new row, the visitor is sent to the customer menu, and the account
    has no admin rights. *)
Theorem register_then_login
    (form lform : gmap string string) (salt : string) (w w1 : World) (s : Site)
    (username password : string) :
  register generate_password_hash "POST" form salt w = (Std (Redirect "login" None), w1) ->
  form !! "username" = Some username ->
  form !! "password" = Some password ->
  check_password_hash (generate_password_hash salt password) password = true ->
  lform !! "username" = Some username ->
  lform !! "password" = Some password ->
  db (site_world s) = db w1 ->
  let s' := snd (login check_password_hash "POST" lform s) in
  fst (login check_password_hash "POST" lform s) = Std (Redirect "customer_menu" None) /\
  user_id (session (site_world s')) = Some (next_id u_id (users (db w))) /\
  site_username s' = Some username /\ site_is_admin s' = Some false /\
  (exists user, query_get u_id (users (db (site_world s'))) (next_id u_id (users (db w)))
                = Some user /\ u_username user = username /\ u_is_admin user = false) /\
  no_admin_rights (site_world s').
Proof.
  intros H Hu Hp Hchk Hlu Hlp Hdb. cbv zeta.
  apply register_success_inv in H as (un & em & pw & Hu' & He' & Hp' & Hn & Hm & ->).
  rewrite Hu in Hu'. injection Hu' as <-. rewrite Hp in Hp'. injection Hp' as <-.
  set (new_user := {| u_id := next_id u_id (users (db w)); u_username := username;
                      u_email := em;
                      u_password := generate_password_hash salt password;
                      u_is_admin := false |}).
  simpl in Hdb.
  assert (Hfind : find (username_is username) (users (db (site_world s))) = Some new_user).
  { rewrite Hdb. simpl. apply (find_app_new _ _ new_user Hn).
    unfold username_is. simpl. apply String.eqb_refl. }
  rewrite (login_accepted lform s username password new_user Hlu Hlp Hfind Hchk).
  simpl.
  assert (Hget : query_get u_id (users (db (site_world s))) (next_id u_id (users (db w)))
                 = Some new_user).
  { rewrite Hdb. simpl. apply (query_get_app_new u_id (users (db w)) new_user).
    apply (next_id_fresh u_id). }
  split; [reflexivity|]. split; [reflexivity|]. split; [reflexivity|].
  split; [reflexivity|]. split.
  - exists new_user. repeat split. exact Hget.
  - unfold no_admin_rights. simpl. exists new_user. split; [exact Hget | reflexivity].
Qed.

(** X26. A failed login tells nothing apart and changes nothing: an
    unknown username and a wrong password get the same redirect and the
    same message "Invalid username or password", and the session keeps
    its user, cart and flags. *)
Theorem login_rejects
    (form : gmap string string) (s : Site) (username password : string) :
  form !! "username" = Some username ->
  form !! "password" = Some password ->
  (forall x, x ∈ users (db (site_world s)) -> u_username x <> username) \/
  (exists user, find (username_is username) (users (db (site_world s))) = Some user /\
                check_password_hash (u_password user) password = false) ->
  login check_password_hash "POST" form s =
    (Std (Redirect "login" None),
     {| site_world := flash "Invalid username or password" "danger" (site_world s);
        site_username := site_username s;
        site_is_admin := site_is_admin s |}).
Proof.
  intros Hu Hp Hcase. unfold login. simpl. rewrite Hu, Hp.
  destruct Hcase as [Hnone | (user & Hf & Hc)].
  - assert (Hf : find (username_is username) (users (db (site_world s))) = None).
    { apply find_none_iff. intros x Hx. apply String.eqb_neq. now apply Hnone. }
    now rewrite Hf.
  - now rewrite Hf, Hc.
Qed.

(** X27. A successful login replaces the user of the session and keeps
    its cart: whatever cart the session held, from an earlier user as
    well, is the cart of the user who logged in; the store and the queued
    messages are untouched, and the redirect goes to the dashboard for an
    admin and to the menu otherwise. *)
Theorem login_keeps_cart
    (form : gmap string string) (s : Site) (username password : string) (user : User) :
  form !! "username" = Some username ->
  form !! "password" = Some password ->
  find (username_is username) (users (db (site_world s))) = Some user ->
  check_password_hash (u_password user) password = true ->
  let s' := snd (login check_password_hash "POST" form s) in
  fst (login check_password_hash "POST" form s)
    = Std (Redirect (if u_is_admin user then "admin_dashboard" else "customer_menu") None) /\
  user_id (session (site_world s')) = Some (u_id user) /\
  cart (session (site_world s')) = cart (session (site_world s)) /\
  site_username s' = Some username /\
  site_is_admin s' = Some (u_is_admin user) /\
  db (site_world s') = db (site_world s) /\
  flashes (site_world s') = flashes (site_world s).
Proof.
  intros Hu Hp Hf Hc. cbv zeta.
  rewrite (login_accepted form s username password user Hu Hp Hf Hc). simpl.
  apply find_some in Hf as [_ Hname]. unfold username_is in Hname.
  apply String.eqb_eq in Hname. rewrite Hname. repeat split.
Qed.

(** X28. logout empties the session: user, cart, username and admin flag
    are gone and so are the messages that were still queued, only the
    farewell is left; the store is untouched. The customer routes then
    ask for a login, so a cart that was not checked out is lost. *)
Theorem logout_clears (s : Site) :
  let s' := snd (logout s) in
  fst (logout s) = Std (Redirect "index" None) /\
  user_id (session (site_world s')) = None /\
  cart (session (site_world s')) = None /\
  site_username s' = None /\ site_is_admin s' = None /\
  flashes (site_world s') = [("You have been logged out.", "success")] /\
  db (site_world s') = db (site_world s) /\
  fst (checkout (site_world s')) = Redirect "login" None /\
  fst (view_cart (site_world s')) = Redirect "login" None /\
  db (snd (checkout (site_world s'))) = db (site_world s).
Proof. cbv zeta. unfold logout. simpl. repeat split. Qed.

(** X29. create_tables seeds the admin account once: when a user named
    admin exists, whoever it is, the store is left alone; otherwise the
    account admin / admin@example.com with admin rights is inserted, unless
    the e-mail is taken, which is an IntegrityError. Run again on a store
    it produced, it changes nothing. *)
Theorem create_tables_seeds_once (salt salt' : string) (d : Db) :
  (forall x, x ∈ users d -> u_username x = "admin" ->
     create_tables generate_password_hash salt d = Some d) /\
  ((forall x, x ∈ users d -> u_username x <> "admin") ->
   (forall x, x ∈ users d -> u_email x <> "admin@example.com") ->
     create_tables generate_password_hash salt d =
       Some {| users := users d
                 ++ [ {| u_id := next_id u_id (users d); u_username := "admin";
                         u_email := "admin@example.com";
                         u_password := generate_password_hash salt "admin123";
                         u_is_admin := true |} ];
               categories := categories d; menu_items := menu_items d;
               orders := orders d; order_items := order_items d |}) /\
  ((forall x, x ∈ users d -> u_username x <> "admin") ->
   forall y, y ∈ users d -> u_email y = "admin@example.com" ->
     create_tables generate_password_hash salt d = None) /\
  (forall d', create_tables generate_password_hash salt d = Some d' ->
     create_tables generate_password_hash salt' d' = Some d' /\
     (users_unique (users d) -> users_unique (users d'))).
Proof.
  split; [|split; [|split]].
  - intros x Hx Hname. unfold create_tables.
    destruct (find_is_some (username_is "admin") (users d) x Hx) as [y ->];
      [|reflexivity].
    unfold username_is. rewrite Hname. reflexivity.
  - intros Hn He. unfold create_tables.
    assert (Hf : find (username_is "admin") (users d) = None).
    { apply find_none_iff. intros x Hx. apply String.eqb_neq. now apply Hn. }
    rewrite Hf. unfold insert_user.
    rewrite (find_none_existsb _ _ Hf). simpl.
    replace (existsb (email_is "admin@example.com") (users d)) with false; [reflexivity|].
    symmetry. apply existsb_false_iff. intros x Hx. apply String.eqb_neq. now apply He.
  - intros Hn y Hy Hmail. unfold create_tables.
    assert (Hf : find (username_is "admin") (users d) = None).
    { apply find_none_iff. intros x Hx. apply String.eqb_neq. now apply Hn. }
    rewrite Hf. unfold insert_user.
    replace (existsb (email_is "admin@example.com") (users d)) with true;
      [now rewrite orb_true_r|].
    symmetry. apply existsb_exists. exists y. split; [now apply list_elem_of_In|].
    unfold email_is. rewrite Hmail. reflexivity.
  - intros d'. unfold create_tables at 1.
    destruct (find (username_is "admin") (users d)) as [a|] eqn:Hf.
    + intros [= <-]. split; [|auto]. unfold create_tables. now rewrite Hf.
    + intros Hins. split; [|now apply (insert_user_unique _ _ _ _ _ _ Hins)].
      unfold insert_user in Hins.
      destruct (existsb (username_is "admin") (users d)
                || existsb (email_is "admin@example.com") (users d)); [discriminate|].
      injection Hins as <-. unfold create_tables. simpl.
      rewrite (find_app_new _ _ _ Hf); reflexivity.
Qed.

End AccountFacts.

(** ** The account properties on the sample store *)

Lemma sample_usernames_free (name : string) :
  name <> "admin" -> name <> "alice" -> name <> "bob" ->
  forall x, x ∈ users sample_db -> u_username x <> name.
Proof.
  intros H1 H2 H3. apply Forall_forall. simpl.
  repeat constructor; simpl; congruence.
Qed.

Lemma sample_emails_free (email : string) :
  email <> "admin@example.com" -> email <> "alice@example.com" ->
  email <> "bob@example.com" ->
  forall x, x ∈ users sample_db -> u_email x <> email.
Proof.
  intros H1 H2 H3. apply Forall_forall. simpl.
  repeat constructor; simpl; congruence.
Qed.

Lemma register_creates_customer_witness :
  let new_user := {| u_id := next_id u_id (users (db visitor)); u_username := "carol";
                     u_email := "carol@example.com";
                     u_password := sample_hash "s" "pw";
                     u_is_admin := false |} in
  register sample_hash "POST" carol_form "s" visitor =
    (Std (Redirect "login" None),
     flash "Registration successful. Please login." "success"
       (set_db {| users := users (db visitor) ++ [new_user];
                  categories := categories (db visitor);
                  menu_items := menu_items (db visitor); orders := orders (db visitor);
                  order_items := order_items (db visitor) |} visitor)) /\
  Forall (fun x => u_id x <> u_id new_user) (users (db visitor)).
Proof.
  apply (register_creates_customer sample_hash carol_form "s" visitor
           "carol" "carol@example.com" "pw"); try reflexivity.
  - apply sample_usernames_free; discriminate.
  - apply sample_emails_free; discriminate.
Defined.

Lemma register_rejects_duplicates_witness :
  let w1 := snd (register sample_hash "POST" carol_form "s" visitor) in
  let form2 : gmap string string :=
    <["username" := "carol"]> (<["email" := "other@example.com"]> {["password" := "x"]}) in
  let second := register sample_hash "POST" form2 "t" w1 in
  (carol_form !! "username" = Some "carol" ->
     second = (Std (Redirect "register" None), flash "Username already taken" "danger" w1)) /\
  (carol_form !! "email" = Some "other@example.com" ->
     second = (Std (Redirect "register" None), flash "Username already taken" "danger" w1) \/
     second = (Std (Redirect "register" None), flash "Email already registered" "danger" w1)) /\
  (carol_form !! "username" = Some "carol" \/ carol_form !! "email" = Some "other@example.com" ->
     db (snd second) = db w1).
Proof.
  apply (register_rejects_duplicates sample_hash carol_form
           (<["username" := "carol"]> (<["email" := "other@example.com"]> {["password" := "x"]}))
           "s" "t" visitor (snd (register sample_hash "POST" carol_form "s" visitor))
           "carol" "other@example.com" "x"); reflexivity.
Defined.

Lemma missing_form_field_is_bad_request_witness :
  register sample_hash "POST" {["username" := "carol"]} "s" visitor = (BadRequest, visitor).
Proof.
  apply (missing_form_field_is_bad_request sample_hash sample_check
           {["username" := "carol"]} "s" visitor (mkSite visitor None None)).
  right. left. reflexivity.
Defined.

Lemma register_then_login_witness :
  let w1 := snd (register sample_hash "POST" carol_form "s" visitor) in
  let s := mkSite w1 None None in
  let s' := snd (login sample_check "POST" carol_form s) in
  fst (login sample_check "POST" carol_form s) = Std (Redirect "customer_menu" None) /\
  user_id (session (site_world s')) = Some (next_id u_id (users (db visitor))) /\
  site_username s' = Some "carol" /\ site_is_admin s' = Some false /\
  (exists user, query_get u_id (users (db (site_world s'))) (next_id u_id (users (db visitor)))
                = Some user /\ u_username user = "carol" /\ u_is_admin user = false) /\
  no_admin_rights (site_world s').
Proof.
  apply (register_then_login sample_hash sample_check carol_form carol_form "s" visitor
           (snd (register sample_hash "POST" carol_form "s" visitor))
           (mkSite (snd (register sample_hash "POST" carol_form "s" visitor)) None None)
           "carol" "pw"); reflexivity.
Defined.

Lemma login_rejects_witness :
  let s := mkSite (snd (register sample_hash "POST" carol_form "s" visitor)) None None in
  let form : gmap string string := <["username" := "carol"]> {["password" := "wrong"]} in
  login sample_check "POST" form s =
    (Std (Redirect "login" None),
     {| site_world := flash "Invalid username or password" "danger" (site_world s);
        site_username := site_username s;
        site_is_admin := site_is_admin s |}).
Proof.
  apply (login_rejects sample_check
           (<["username" := "carol"]> {["password" := "wrong"]})
           (mkSite (snd (register sample_hash "POST" carol_form "s" visitor)) None None)
           "carol" "wrong"); try reflexivity.
  right. eexists. split; reflexivity.
Defined.

Lemma login_keeps_cart_witness :
  let w1 := snd (register sample_hash "POST" carol_form "s" alice_shopping) in
  let s := mkSite w1 (Some "alice") (Some false) in
  let user := mkUser 4 "carol" "carol@example.com" (sample_hash "s" "pw") false in
  let s' := snd (login sample_check "POST" carol_form s) in
  fst (login sample_check "POST" carol_form s)
    = Std (Redirect (if u_is_admin user then "admin_dashboard" else "customer_menu") None) /\
  user_id (session (site_world s')) = Some (u_id user) /\
  cart (session (site_world s')) = cart (session (site_world s)) /\
  site_username s' = Some "carol" /\
  site_is_admin s' = Some (u_is_admin user) /\
  db (site_world s') = db (site_world s) /\
  flashes (site_world s') = flashes (site_world s).
Proof.
  apply (login_keeps_cart sample_check carol_form
           (mkSite (snd (register sample_hash "POST" carol_form "s" alice_shopping))
                   (Some "alice") (Some false))
           "carol" "pw"
           (mkUser 4 "carol" "carol@example.com" (sample_hash "s" "pw") false));
    reflexivity.
Defined.

Lemma create_tables_seeds_once_witness :
  create_tables sample_hash "s" sample_db = Some sample_db /\
  create_tables sample_hash "s"
    {| users := []; categories := []; menu_items := []; orders := []; order_items := [] |}
  = Some {| users := [ mkUser 1 "admin" "admin@example.com" (sample_hash "s" "admin123") true ];
            categories := []; menu_items := []; orders := []; order_items := [] |}.
Proof.
  split.
  - apply (proj1 (create_tables_seeds_once sample_hash "s" "s" sample_db)
             (mkUser 1 "admin" "admin@example.com" "sha256$1" true)).
    + left.
    + reflexivity.
  - apply (proj1 (proj2 (create_tables_seeds_once sample_hash "s" "s"
             {| users := []; categories := []; menu_items := []; orders := [];
                order_items := [] |}))); intros x Hx; inversion Hx.
Defined.

(* ===================================================================== *)
(** * Primary keys stay unique *)
(* ===================================================================== *)

Section Preservation.

Variable P : Db -> Prop.

Lemma login_required_preserves (f : handler) (w : World) :
  (forall w0, P (db w0) -> P (db (snd (f w0)))) ->
  P (db w) -> P (db (snd (login_required f w))).
Proof.
  intros Hf Hw. unfold login_required.
  destruct (user_id (session w)); [now apply Hf | exact Hw].
Qed.

Lemma admin_required_preserves (f : handler) (w : World) :
  (forall w0, P (db w0) -> P (db (snd (f w0)))) ->
  P (db w) -> P (db (snd (admin_required f w))).
Proof.
  intros Hf Hw. unfold admin_required.
  destruct (user_id (session w)) as [uid|]; [|exact Hw].
  destruct (query_get u_id (users (db w)) uid) as [u|]; [|exact Hw].
  destruct (u_is_admin u); simpl; [now apply Hf | exact Hw].
Qed.

Lemma admin_required_view_preserves (f : view) (w : World) :
  (forall w0, P (db w0) -> P (db (snd (f w0)))) ->
  P (db w) -> P (db (snd (admin_required_view f w))).
Proof.
  intros Hf Hw. unfold admin_required_view.
  destruct (user_id (session w)) as [uid|]; [|exact Hw].
  destruct (query_get u_id (users (db w)) uid) as [u|]; [|exact Hw].
  destruct (u_is_admin u); simpl; [now apply Hf | exact Hw].
Qed.

End Preservation.

Lemma add_order_items_keys (order_id : Z) (cart : list CartEntry) (rows0 : list OrderItem) :
  NoDup (map oi_id rows0) ->
  NoDup (map oi_id (fold_left (add_order_item order_id) cart rows0)).
Proof.
  revert rows0. induction cart as [|e cart IH]; intros rows0 Hnd; simpl; [exact Hnd|].
  apply IH. unfold add_order_item. rewrite map_app. simpl.
  apply NoDup_snoc_fresh; [exact Hnd | apply next_id_not_in].
Qed.

Lemma set_status_ids (order_id : Z) (s : string) (rows : list Order) :
  map o_id (set_status order_id s rows) = map o_id rows.
Proof.
  unfold set_status. rewrite map_map. apply map_ext. intros o.
  now destruct (o_id o =? order_id).
Qed.

Lemma promote_ids (target : Z) (rows : list User) :
  map u_id (promote target rows) = map u_id rows.
Proof.
  unfold promote. rewrite map_map. apply map_ext. intros x.
  now destruct (u_id x =? target).
Qed.

Lemma add_to_cart_db (item_id : Z) (w : World) : db (snd (add_to_cart item_id w)) = db w.
Proof.
  unfold add_to_cart, login_required.
  destruct (user_id (session w)); [|reflexivity]. cbv zeta.
  destruct (cart (session w)); simpl;
    destruct (query_get mi_id (menu_items (db w)) item_id) as [item|]; simpl; auto;
    match goal with |- context [add_existing ?a ?b] => destruct (add_existing a b) end;
    reflexivity.
Qed.

Lemma update_cart_never_adds_db (index : Z) (form : gmap string string) (w : World) :
  db (snd (update_cart index form w)) = db w /\
  user_id (session (snd (update_cart index form w))) = user_id (session w).
Proof.
  unfold update_cart, login_required.
  destruct (user_id (session w)) eqn:Hu; [|now split].
  destruct ((0 <=? index) && (index <? Z.of_nat (length (session_cart w)))); now split.
Qed.

(** X30. No route ever stores a primary key twice: if the ids in each of
    the five tables are distinct, they are distinct after any request to
    add_to_cart, update_cart, checkout, add_item, update_order_status,
    add_category, make_admin or register, whatever its arguments and
    whoever sends it; so a lookup by id keeps naming one row. *)
Theorem routes_keep_keys_unique
    (generate_password_hash : string -> string -> string) (w : World) :
  keys_unique (db w) ->
  (forall item_id, keys_unique (db (snd (add_to_cart item_id w)))) /\
  (forall index form, keys_unique (db (snd (update_cart index form w)))) /\
  keys_unique (db (snd (checkout w))) /\
  (forall form, keys_unique (db (snd (add_item form w)))) /\
  (forall order_id form, keys_unique (db (snd (update_order_status order_id form w)))) /\
  (forall form, keys_unique (db (snd (add_category form w)))) /\
  (forall target, keys_unique (db (snd (make_admin target w)))) /\
  (forall method form salt,
     keys_unique (db (snd (register generate_password_hash method form salt w)))).
Proof.
  intros Hk.
  split; [intros; now rewrite add_to_cart_db|].
  split.
  { intros index form.
    destruct (update_cart_never_adds_db index form w) as [-> _]. exact Hk. }
  split.
  { destruct (checkout_db_cases w) as [-> | [(order & Hid & ->) | [oid H]]]; [exact Hk| |].
    { destruct Hk as (Hu & Hc & Hm & Ho & Hi). repeat split; auto.
      simpl. rewrite map_app. simpl. rewrite Hid.
      apply NoDup_snoc_fresh; [exact Ho | apply next_id_not_in]. }
    apply checkout_success_inv in H as (uid & t & _ & _ & _ & _ & ->).
    destruct Hk as (Hu & Hc & Hm & Ho & Hi). simpl.
    repeat split; auto.
    - simpl. rewrite map_app. simpl. apply NoDup_snoc_fresh; [exact Ho | apply next_id_not_in].
    - simpl. now apply add_order_items_keys. }
  split.
  { intros form. unfold add_item.
    apply (admin_required_preserves keys_unique); [|exact Hk].
    intros w0 (Hu & Hc & Hm & Ho & Hi).
    destruct (builtin_float (form !! "price")); [|repeat split; auto].
    destruct (builtin_int (form !! "category_id")); [|repeat split; auto].
    destruct (negb (truthy_str (form !! "name")) || negb (truthy_float a)
              || negb (truthy_int a0)); [simpl; repeat split; auto|].
    destruct (fits_integer a0); [|simpl; repeat split; auto].
    destruct (stored_real a); simpl; repeat split; auto.
    simpl. rewrite map_app. simpl. apply NoDup_snoc_fresh; [exact Hm | apply next_id_not_in]. }
  split.
  { intros order_id form. unfold update_order_status.
    apply (admin_required_preserves keys_unique); [|exact Hk].
    intros w0 (Hu & Hc & Hm & Ho & Hi).
    destruct (query_get o_id (orders (db w0)) order_id); [|repeat split; auto].
    destruct (allowed_status (form !! "status")); simpl; repeat split; auto.
    simpl. now rewrite set_status_ids. }
  split.
  { intros form. unfold add_category.
    apply (admin_required_view_preserves keys_unique); [|exact Hk].
    intros w0 (Hu & Hc & Hm & Ho & Hi).
    destruct (negb (truthy_str (form !! "name"))); [repeat split; auto|].
    destruct (find _ (categories (db w0))); [repeat split; auto|].
    unfold insert_category.
    destruct (existsb _ (categories (db w0))); simpl; repeat split; auto.
    simpl. rewrite map_app. simpl. apply NoDup_snoc_fresh; [exact Hc | apply next_id_not_in]. }
  split.
  { intros target. unfold make_admin.
    apply (admin_required_view_preserves keys_unique); [|exact Hk].
    intros w0 (Hu & Hc & Hm & Ho & Hi).
    destruct (query_get u_id (users (db w0)) target); simpl; repeat split; auto.
    simpl. now rewrite promote_ids. }
  intros method form salt. unfold register.
  destruct Hk as (Hu & Hc & Hm & Ho & Hi).
  destruct (String.eqb method "POST"); [|repeat split; auto].
  destruct (form !! "username") as [username|]; [|repeat split; auto].
  destruct (form !! "email") as [email|]; [|repeat split; auto].
  destruct (form !! "password") as [password|]; [|repeat split; auto].
  destruct (find (username_is username) (users (db w))); [repeat split; auto|].
  destruct (find (email_is email) (users (db w))); [repeat split; auto|].
  unfold insert_user.
  destruct (existsb (username_is username) (users (db w))
            || existsb (email_is email) (users (db w))); simpl; repeat split; auto.
  simpl. rewrite map_app. simpl. apply NoDup_snoc_fresh; [exact Hu | apply next_id_not_in].
Qed.

Lemma routes_keep_keys_unique_witness :
  (forall item_id, keys_unique (db (snd (add_to_cart item_id alice_shopping)))) /\
  (forall index form, keys_unique (db (snd (update_cart index form alice_shopping)))) /\
  keys_unique (db (snd (checkout alice_shopping))) /\
  (forall form, keys_unique (db (snd (add_item form alice_shopping)))) /\
  (forall order_id form,
     keys_unique (db (snd (update_order_status order_id form alice_shopping)))) /\
  (forall form, keys_unique (db (snd (add_category form alice_shopping)))) /\
  (forall target, keys_unique (db (snd (make_admin target alice_shopping)))) /\
  (forall method form salt,
     keys_unique (db (snd (register sample_hash method form salt alice_shopping)))).
Proof.
  apply (routes_keep_keys_unique sample_hash alice_shopping).
  unfold keys_unique. vm_compute.
  repeat split; apply (bool_decide_unpack _); vm_compute; exact I.
Defined.
